(** * The training entry point of lora-training-sdxl ([predict.py])

    A shallow embedding of [Predictor.predict] and [download_weights]:
    the token-map bookkeeping is a pure function on strings, the
    filesystem and the calls into the collaborators ([preprocess],
    [pget], [trainer_pti.main]) are threaded through a small
    state-and-exception monad whose state survives a raised error, as
    it does in Python.

    Conventions of the model.
    - A Python [str] is a [string]: a sequence of characters with code
      points below 256.  In that range the decimal digits are "0".."9"
      and the characters [int()] strips are the six ASCII blanks, NEL
      (133) and NBSP (160).
    - Python integers are [Z]; interpreter resource limits (memory, the
      digit limit of [int()]) are not modelled.
    - Python floats are the primitive binary64 floats. *)

From Stdlib Require Import ZArith String Ascii List Lia Bool.
From Stdlib Require Import Decimal DecimalString DecimalZ.
From Stdlib Require Import Floats.
From stdpp Require Import base option list strings gmap.

Import ListNotations.
Set Warnings "-inexact-float,-register-all".
Local Open Scope Z_scope.
Local Open Scope string_scope.

(** ** Exceptions *)

Inductive PyError : Type :=
| ValueError                      (* int() on a non-numeral *)
| IndexError                      (* list index out of range *)
| NotADirectoryError              (* shutil.rmtree on a regular file *)
| FileExistsError                 (* os.makedirs on an existing path *)
| FileNotFoundError               (* a path that does not exist *)
| CalledProcessError (code : Z)   (* subprocess.check_call, non-zero exit *)
| CollaboratorError (msg : string)(* raised inside preprocess / main *)
| ValidationError (field : string)(* raised by the serving runtime *).

Definition Result (A : Type) : Type := PyError + A.

(** ** Python string primitives used by [predict] *)

Module PyStr.

(** [s.split(sep)] for a one-character separator: every occurrence
    splits, and the result always has at least one field. *)
Fixpoint split (sep : ascii) (s : string) : list string :=
  match s with
  | EmptyString => [EmptyString]
  | String c rest =>
      if Ascii.eqb c sep then EmptyString :: split sep rest
      else match split sep rest with
           | [] => [String c EmptyString]
           | hd :: tl => String c hd :: tl
           end
  end.

(** [l[i]]: raises [IndexError] out of range. *)
Definition index {A : Type} (l : list A) (i : nat) : Result A :=
  match nth_error l i with
  | Some x => inr x
  | None => inl IndexError
  end.

(** Characters skipped by [int()] around a numeral. *)
Definition is_space (c : ascii) : bool :=
  let n := N_of_ascii c in
  (((9 <=? n) && (n <=? 13)) || (n =? 32) || (n =? 133) || (n =? 160))%N.

Fixpoint lstrip (s : string) : string :=
  match s with
  | String c rest => if is_space c then lstrip rest else s
  | EmptyString => EmptyString
  end.

(** Drops trailing blanks: a blank is kept only when something
    non-blank follows it. *)
Fixpoint rstrip (s : string) : string :=
  match s with
  | EmptyString => EmptyString
  | String c rest =>
      match rstrip rest with
      | EmptyString => if is_space c then EmptyString else String c EmptyString
      | r => String c r
      end
  end.

Definition strip (s : string) : string := rstrip (lstrip s).

Definition digit_of (c : ascii) : option Z :=
  let n := N_of_ascii c in
  if ((48 <=? n) && (n <=? 57))%N then Some (Z.of_N n - 48) else None.

(** Digits of a base-10 literal, most significant first; a single
    underscore is allowed between two digits.  [prev] says whether the
    previous character was a digit. *)
Fixpoint digits_value (acc : Z) (prev : bool) (s : string) : option Z :=
  match s with
  | EmptyString => if prev then Some acc else None
  | String c rest =>
      match digit_of c with
      | Some d => digits_value (10 * acc + d) true rest
      | None =>
          if Ascii.eqb c "_" && prev then digits_value acc false rest
          else None
      end
  end.

(** [int(s)]: blanks, an optional sign, digits, blanks.  [None] is
    Python's [ValueError]. *)
Definition parse_int (s : string) : option Z :=
  match strip s with
  | String "+" rest => digits_value 0 false rest
  | String "-" rest => Z.opp <$> digits_value 0 false rest
  | t => digits_value 0 false t
  end.

Definition int (s : string) : Result Z :=
  match parse_int s with
  | Some z => inr z
  | None => inl ValueError
  end.

(** [str(z)], as the f-string [f"{z}"] formats an integer. *)
Definition str (z : Z) : string := NilZero.string_of_int (Z.to_int z).

(** [range(n)]: empty when [n <= 0]. *)
Definition range (n : Z) : list Z := seqZ 0 n.

(** ["".join(l)] *)
Definition join (l : list string) : string := fold_right String.append "" l.

Definition contains (c : ascii) (s : string) : bool :=
  existsb (Ascii.eqb c) (list_ascii_of_string s).

End PyStr.

(** ** Python dictionaries

    A [dict] keeps its keys in insertion order; assigning to a key that
    is present replaces the value in place. *)

Module PyDict.

Definition t : Type := list (string * string).

Definition empty : t := [].

Fixpoint set (k v : string) (d : t) : t :=
  match d with
  | [] => [(k, v)]
  | (k', v') :: rest =>
      if String.eqb k' k then (k, v) :: rest else (k', v') :: set k v rest
  end.

Definition keys (d : t) : list string := fst <$> d.

Fixpoint get (k : string) (d : t) : option string :=
  match d with
  | [] => None
  | (k', v) :: rest => if String.eqb k' k then Some v else get k rest
  end.

End PyDict.

(** ** Token Map Builder (lines 172-188 of [predict])  *)

Record BuilderState : Type := mkBuilderState {
  token_dict : PyDict.t;
  running_tok_cnt : Z;
  all_token_lists : list string;
}.

(** [f"<s{i + running_tok_cnt}>"] *)
Definition placeholder (running : Z) (i : Z) : string :=
  "<s" +:+ PyStr.str (i + running) +:+ ">".

(** One iteration of [for token in inserting_list_tokens]. *)
Definition builder_step (st : BuilderState) (token : string)
  : Result BuilderState :=
  match PyStr.index (PyStr.split ":" token) 1 with
  | inl e => inl e
  | inr field =>
      match PyStr.int field with
      | inl e => inl e
      | inr n_tok =>
          match PyStr.index (PyStr.split ":" token) 0 with
          | inl e => inl e
          | inr key =>
              let toks := placeholder (running_tok_cnt st) <$> PyStr.range n_tok in
              inr {| token_dict := PyDict.set key (PyStr.join toks) (token_dict st);
                     running_tok_cnt := running_tok_cnt st + n_tok;
                     all_token_lists := all_token_lists st ++ toks |}
          end
      end
  end.

Fixpoint builder_loop (st : BuilderState) (tokens : list string)
  : Result BuilderState :=
  match tokens with
  | [] => inr st
  | token :: rest =>
      match builder_step st token with
      | inl e => inl e
      | inr st' => builder_loop st' rest
      end
  end.

Definition builder_init : BuilderState :=
  {| token_dict := PyDict.empty; running_tok_cnt := 0; all_token_lists := [] |}.

(** Lines 172-188: [token_map], [inserting_list_tokens] and the loop. *)
Definition build_token_map (token_string : string) : Result BuilderState :=
  let token_map := token_string +:+ ":2" in
  let inserting_list_tokens := PyStr.split "," token_map in
  builder_loop builder_init inserting_list_tokens.

(** ** The world: filesystem, clock and the log of calls *)

(** A filesystem tree.  The paths the program resolves are relative,
    so the tree of the model is the one below the working directory. *)
Inductive Node : Type :=
| File (content : string)
| Dir (children : gmap string Node).

(** What the collaborators can see and change. *)
Record Env : Type := mkEnv {
  fs : Node;
  clock : float;
}.

Module Preprocess.
(** Keyword arguments of [preprocess(...)], lines 190-200. *)
Record args : Type := mk {
  input_images_filetype : string;
  input_zip_path : string;
  caption_text : string;
  mask_target_prompts : option string;
  target_size : Z;
  crop_based_on_salience : bool;
  use_face_detection_instead : bool;
  temp : float;
  substitution_tokens : list string;
}.
End Preprocess.

Module Main.
(** Keyword arguments of [main(...)], lines 208-234. *)
Record args : Type := mk {
  pretrained_model_name_or_path : string;
  instance_data_dir : string;
  output_dir : string;
  seed : option Z;
  resolution : Z;
  train_batch_size : Z;
  num_train_epochs : Z;
  max_train_steps : Z;
  gradient_accumulation_steps : Z;
  unet_learning_rate : float;
  ti_lr : float;
  lora_lr : float;
  lr_scheduler : string;
  lr_warmup_steps : Z;
  token_dict : PyDict.t;
  inserting_list_tokens : list string;
  verbose : bool;
  checkpointing_steps : Z;
  scale_lr : bool;
  max_grad_norm : float;
  allow_tf32 : bool;
  mixed_precision : string;
  device : string;
  lora_rank : Z;
  is_lora : bool;
}.
End Main.

(** An argument of [print]. *)
Inductive Printed : Type :=
| PStr (s : string)
| PFloat (x : float).

(** Calls that leave the process, in the order they are made. *)
Inductive Event : Type :=
| EvPreprocess (a : Preprocess.args)
| EvExists (path : string)
| EvPrint (items : list Printed)
| EvCheckCall (argv : list string)
| EvRmtree (path : string)
| EvMakedirs (path : string)
| EvMain (a : Main.args).

Record World : Type := mkWorld {
  env : Env;
  trace : list Event;
}.

(** Computations of the model: the world is threaded through, and it
    is returned also when an exception is raised. *)
Definition M (A : Type) : Type := World -> World * Result A.

#[global] Instance M_ret : MRet M := fun A x w => (w, inr x).

#[global] Instance M_bind : MBind M := fun A B f m w =>
  match m w with
  | (w', inl e) => (w', inl e)
  | (w', inr x) => f x w'
  end.

Definition raise {A : Type} (e : PyError) : M A := fun w => (w, inl e).

Definition lift {A : Type} (r : Result A) : M A := fun w => (w, r).

Definition log (e : Event) : M unit :=
  fun w => ({| env := env w; trace := trace w ++ [e] |}, inr tt).

(** Runs an action of a collaborator on the environment. *)
Definition effect {A : Type} (f : Env -> Env * Result A) : M A :=
  fun w => let '(e', r) := f (env w) in ({| env := e'; trace := trace w |}, r).

Definition ask : M Env := fun w => (w, inr (env w)).

(** ** Filesystem primitives *)

(** The names a relative path goes through: empty components and [.]
    are skipped ([..] and symbolic links are not modelled). *)
Definition components (path : string) : list string :=
  filter (fun c => c <> "" /\ c <> ".") (PyStr.split "/" path).

Fixpoint lookup_path (p : list string) (n : Node) : option Node :=
  match p with
  | [] => Some n
  | c :: rest =>
      match n with
      | Dir children =>
          match children !! c with
          | Some sub => lookup_path rest sub
          | None => None
          end
      | File _ => None
      end
  end.

Fixpoint remove_path (p : list string) (n : Node) : Node :=
  match p, n with
  | [c], Dir children => Dir (delete c children)
  | c :: rest, Dir children =>
      match children !! c with
      | Some sub => Dir (<[c := remove_path rest sub]> children)
      | None => n
      end
  | _, _ => n
  end.

(** A chain of fresh directories, one inside the other. *)
Fixpoint fresh_dirs (p : list string) : Node :=
  match p with
  | [] => Dir ∅
  | c :: rest => Dir {[ c := fresh_dirs rest ]}
  end.

Fixpoint make_path (p : list string) (n : Node) : Result Node :=
  match p with
  | [] => inl FileExistsError
  | c :: rest =>
      match n with
      | File _ => inl NotADirectoryError
      | Dir children =>
          match children !! c with
          | Some sub =>
              match make_path rest sub with
              | inl e => inl e
              | inr sub' => inr (Dir (<[c := sub']> children))
              end
          | None => inr (Dir (<[c := fresh_dirs rest]> children))
          end
      end
  end.

(** Puts [v] at [p], creating the directories on the way (used by the
    stand-in collaborators only). *)
Fixpoint put_path (p : list string) (v : Node) (n : Node) : Node :=
  match p with
  | [] => v
  | c :: rest =>
      match n with
      | Dir children =>
          Dir (<[c := put_path rest v (default (Dir ∅) (children !! c))]> children)
      | File _ => Dir {[ c := put_path rest v (Dir ∅) ]}
      end
  end.

Definition fs_lookup (path : string) (root : Node) : option Node :=
  lookup_path (components path) root.

Definition fs_exists (path : string) (root : Node) : bool :=
  match fs_lookup path root with Some _ => true | None => false end.

(** [shutil.rmtree]: removes a directory and everything below it;
    refuses a regular file. *)
Definition fs_rmtree (path : string) (root : Node) : Result Node :=
  match fs_lookup path root with
  | Some (Dir _) => inr (remove_path (components path) root)
  | Some (File _) => inl NotADirectoryError
  | None => inl FileNotFoundError
  end.

(** [os.makedirs(path)]: creates the missing directories of the path;
    refuses a path that exists. *)
Definition fs_makedirs (path : string) (root : Node) : Result Node :=
  make_path (components path) root.

Definition with_fs (e : Env) (root : Node) : Env :=
  {| fs := root; clock := clock e |}.

Definition env_update (f : Node -> Result Node) : Env -> Env * Result unit :=
  fun e => match f (fs e) with
           | inl err => (e, inl err)
           | inr root => (with_fs e root, inr tt)
           end.

Definition os_path_exists (path : string) : M bool :=
  log (EvExists path);; e ← ask; mret (fs_exists path (fs e)).

Definition shutil_rmtree (path : string) : M unit :=
  log (EvRmtree path);; effect (env_update (fs_rmtree path)).

Definition os_makedirs (path : string) : M unit :=
  log (EvMakedirs path);; effect (env_update (fs_makedirs path)).

(** [os.path.join(a, b)] on POSIX paths. *)
Definition os_path_join (a b : string) : string :=
  if String.prefix "/" b then b
  else match a with
       | EmptyString => b
       | _ => if String.eqb (substring (String.length a - 1) 1 a) "/"
              then a +:+ b else a +:+ "/" +:+ b
       end.

Definition time_time : M float := e ← ask; mret (clock e).

Definition print (items : list Printed) : M unit := log (EvPrint items).

(** ** Module constants (lines 37-47) *)

Definition OUTPUT_DIR : string := "training_out".
Definition SDXL_MODEL_CACHE : string := "./sdxl-cache".
Definition SDXL_URL : string :=
  "https://weights.replicate.delivery/default/sdxl/sdxl-vae-upcast-fix.tar".

(** ** The parameters of [predict] (lines 75-170) *)

Record PredictArgs : Type := mkPredictArgs {
  input_images : string;
  seed : option Z;
  resolution : Z;
  train_batch_size : Z;
  num_train_epochs : Z;
  max_train_steps : Z;
  unet_learning_rate : float;
  ti_lr : float;
  lora_lr : float;
  lora_rank : Z;
  lr_scheduler : string;
  lr_warmup_steps : Z;
  token_string : string;
  caption_prefix : string;
  mask_target_prompts : option string;
  crop_based_on_salience : bool;
  use_face_detection_instead : bool;
  clipseg_temperature : float;
  verbose : bool;
  checkpointing_steps : Z;
  input_images_filetype : string;
}.

(** The [default=] of every [Input]; [input_images] has none. *)
Definition default_args (images : string) : PredictArgs :=
  {| input_images := images;
     seed := None;
     resolution := 768;
     train_batch_size := 4;
     num_train_epochs := 4000;
     max_train_steps := 1000;
     unet_learning_rate := 1e-6%float;
     ti_lr := 3e-4%float;
     lora_lr := 1e-4%float;
     lora_rank := 32;
     lr_scheduler := "constant";
     lr_warmup_steps := 100;
     token_string := "TOK";
     caption_prefix := "a photo of TOK, ";
     mask_target_prompts := None;
     crop_based_on_salience := true;
     use_face_detection_instead := false;
     clipseg_temperature := 1.0%float;
     verbose := true;
     checkpointing_steps := 999999;
     input_images_filetype := "infer" |}.

(** The [choices=] of the two [Input]s that declare them
    (lines 123-126 and 168). *)
Definition lr_scheduler_choices : list string := ["constant"; "linear"].
Definition input_images_filetype_choices : list string := ["zip"; "tar"; "infer"].

Definition is_choice (v : string) (choices : list string) : bool :=
  existsb (String.eqb v) choices.

(** Modelled from the spec: the serving runtime that reads the [Input]
    declarations and calls [predict] is not under src/.  The spec says
    of it that a scheduler name or filetype outside the enumerated set
    is rejected before any I/O occurs, and that no validation beyond
    the declared type and choice constraints is performed. *)
Definition check_choices (a : PredictArgs) : Result unit :=
  if negb (is_choice (lr_scheduler a) lr_scheduler_choices)
  then inl (ValidationError "lr_scheduler")
  else if negb (is_choice (input_images_filetype a) input_images_filetype_choices)
  then inl (ValidationError "input_images_filetype")
  else inr tt.

Section Orchestrator.

(** The collaborators: [preprocess.preprocess], the operating system
    running a command line, and [trainer_pti.main]. *)
Variable preprocess : Preprocess.args -> Env -> Env * Result string.
Variable run_process : list string -> Env -> Env * Result Z.
Variable main : Main.args -> Env -> Env * Result unit.

(** [subprocess.check_call(argv, close_fds=False)]: a non-zero exit
    status raises. *)
Definition subprocess_check_call (argv : list string) : M unit :=
  log (EvCheckCall argv);;
  code ← effect (run_process argv);
  (if (code =? 0)%Z then mret tt else raise (CalledProcessError code) : M unit).

(** Lines 66-71. *)
Definition download_weights (url dest : string) : M unit :=
  start ← time_time;
  print [PStr "downloading url: "; PStr url];;
  print [PStr "downloading to: "; PStr dest];;
  subprocess_check_call ["pget"; "-x"; url; dest];;
  now ← time_time;
  print [PStr "downloading took: "; PFloat (now - start)%float].

Definition call_preprocess (a : Preprocess.args) : M string :=
  log (EvPreprocess a);; effect (preprocess a).

Definition call_main (a : Main.args) : M unit :=
  log (EvMain a);; effect (main a).

(** The arguments [predict] hands to [main], lines 208-234. *)
Definition main_args (a : PredictArgs) (st : BuilderState) (input_dir : string)
  : Main.args :=
  {| Main.pretrained_model_name_or_path := SDXL_MODEL_CACHE;
     Main.instance_data_dir := os_path_join input_dir "captions.csv";
     Main.output_dir := OUTPUT_DIR;
     Main.seed := seed a;
     Main.resolution := resolution a;
     Main.train_batch_size := train_batch_size a;
     Main.num_train_epochs := num_train_epochs a;
     Main.max_train_steps := max_train_steps a;
     Main.gradient_accumulation_steps := 1;
     Main.unet_learning_rate := unet_learning_rate a;
     Main.ti_lr := ti_lr a;
     Main.lora_lr := lora_lr a;
     Main.lr_scheduler := lr_scheduler a;
     Main.lr_warmup_steps := lr_warmup_steps a;
     Main.token_dict := token_dict st;
     Main.inserting_list_tokens := all_token_lists st;
     Main.verbose := verbose a;
     Main.checkpointing_steps := checkpointing_steps a;
     Main.scale_lr := false;
     Main.max_grad_norm := 1.0%float;
     Main.allow_tf32 := true;
     Main.mixed_precision := "bf16";
     Main.device := "cuda:0";
     Main.lora_rank := lora_rank a;
     Main.is_lora := true |}.

(** The arguments [predict] hands to [preprocess], lines 190-200. *)
Definition preprocess_args (a : PredictArgs) (st : BuilderState)
  : Preprocess.args :=
  {| Preprocess.input_images_filetype := input_images_filetype a;
     Preprocess.input_zip_path := input_images a;
     Preprocess.caption_text := caption_prefix a;
     Preprocess.mask_target_prompts := mask_target_prompts a;
     Preprocess.target_size := resolution a;
     Preprocess.crop_based_on_salience := crop_based_on_salience a;
     Preprocess.use_face_detection_instead := use_face_detection_instead a;
     Preprocess.temp := clipseg_temperature a;
     Preprocess.substitution_tokens := PyDict.keys (token_dict st) |}.

(** Lines 202-203. *)
Definition resolve_weights : M unit :=
  cached ← os_path_exists SDXL_MODEL_CACHE;
  (if negb cached then download_weights SDXL_URL SDXL_MODEL_CACHE else mret tt
   : M unit).

(** Lines 204-206. *)
Definition reset_output_dir : M unit :=
  present ← os_path_exists OUTPUT_DIR;
  (if present : bool then shutil_rmtree OUTPUT_DIR else mret tt : M unit);;
  os_makedirs OUTPUT_DIR.

(** [Predictor.predict], lines 171-235. *)
Definition predict (a : PredictArgs) : M string :=
  st ← lift (build_token_map (token_string a));
  input_dir ← call_preprocess (preprocess_args a st);
  resolve_weights;;
  reset_output_dir;;
  call_main (main_args a st input_dir);;
  mret (OUTPUT_DIR +:+ "/lora.safetensors").

(** An invocation through the serving runtime: the declared choices
    are checked, then [predict] runs. *)
Definition invoke (a : PredictArgs) : M string :=
  lift (check_choices a);; predict a.

End Orchestrator.

(** ** Reading [predict] as two halves

    [prepare] is [predict] up to and including the reset of the output
    directory (lines 172-206); [train_and_return] is the call of the
    training routine and the return (lines 208-235).  [predict_split]
    below shows that [predict] is the one followed by the other. *)

Section Halves.

Variable preprocess : Preprocess.args -> Env -> Env * Result string.
Variable run_process : list string -> Env -> Env * Result Z.
Variable main : Main.args -> Env -> Env * Result unit.

Definition before_weights (a : PredictArgs) : M (BuilderState * string) :=
  st ← lift (build_token_map (token_string a));
  input_dir ← call_preprocess preprocess (preprocess_args a st);
  mret (st, input_dir).

Definition prepare (a : PredictArgs) : M (BuilderState * string) :=
  r ← before_weights a;
  resolve_weights run_process;;
  reset_output_dir;;
  mret r.

Definition train_and_return (a : PredictArgs) (r : BuilderState * string)
  : M string :=
  call_main main (main_args a r.1 r.2);;
  mret (OUTPUT_DIR +:+ "/lora.safetensors").

End Halves.

(** ** Reading the log *)

(** The events [predict] added to the log of [w], given the log after. *)
Definition new_events (w w' : World) : list Event :=
  drop (length (trace w)) (trace w').

Inductive Step : Type :=
| StepPreprocess
| StepWeights
| StepReset
| StepTrain.

#[global] Instance Step_eq_dec : EqDecision Step.
Proof. solve_decision. Defined.



Definition check_calls (evs : list Event) : list (list string) :=
  omap (fun e => match e with EvCheckCall argv => Some argv | _ => None end) evs.

Definition main_calls (evs : list Event) : list Main.args :=
  omap (fun e => match e with EvMain m => Some m | _ => None end) evs.

Definition preprocess_calls (evs : list Event) : list Preprocess.args :=
  omap (fun e => match e with EvPreprocess p => Some p | _ => None end) evs.

Definition makedirs_calls (evs : list Event) : list string :=
  omap (fun e => match e with EvMakedirs p => Some p | _ => None end) evs.

Definition rmtree_calls (evs : list Event) : list string :=
  omap (fun e => match e with EvRmtree p => Some p | _ => None end) evs.

(** ** The log of a complete invocation

    What lines 190-234 write to the log when every step returns:
    preprocessing; the look-up of the weights cache, with the download
    (lines 66-71) when the cache is missing; the look-up of the output
    directory, its removal when it is there, its creation; training. *)


Definition reset_log (present : bool) : list Event :=
  (EvExists OUTPUT_DIR
   :: (if present then [EvRmtree OUTPUT_DIR] else [])
   ++ [EvMakedirs OUTPUT_DIR])%list.


(** ** The trigger string as the spec reads it *)

(** The text before the first [c] (all of [s] when there is none). *)
Fixpoint before_first (c : ascii) (s : string) : string :=
  match s with
  | EmptyString => EmptyString
  | String a rest => if Ascii.eqb a c then EmptyString
                     else String a (before_first c rest)
  end.

(** The text after the first [c] (empty when there is none). *)
Fixpoint after_first (c : ascii) (s : string) : string :=
  match s with
  | EmptyString => EmptyString
  | String a rest => if Ascii.eqb a c then rest else after_first c rest
  end.

(** The text between the first and the second colon. *)
Definition count_text (token_map : string) : string :=
  before_first ":" (after_first ":" token_map).

(** The count an entry of the token map carries, when it has one. *)
Definition entry_count (token : string) : option Z :=
  match PyStr.split ":" token with
  | _ :: field :: _ => PyStr.parse_int field
  | _ => None
  end.

(** ["<s0>", ..., "<s{n-1}>"] shifted by [first]. *)
Definition placeholders (first n : Z) : list string :=
  placeholder first <$> PyStr.range n.

(** ** Contracts of the collaborators *)

(** Modelled from the spec: [trainer_pti.main] is not under src/.  The
    spec says of the Training Routine that it writes the artifact to
    its output directory, under the fixed file name
    [lora.safetensors], and that it is trusted to have written a
    non-empty file whenever it returns. *)
Definition training_writes_artifact
  (main : Main.args -> Env -> Env * Result unit) : Prop :=
  forall m e e', main m e = (e', inr tt) ->
    exists content,
      fs_lookup (os_path_join (Main.output_dir m) "lora.safetensors") (fs e')
        = Some (File content)
      /\ content <> "".

(** What [pget -x url dest] leaves behind when it exits with status 0:
    the archive extracted into the directory [dest]. *)
Definition pget_extracts
  (run_process : list string -> Env -> Env * Result Z) : Prop :=
  forall url dest e e',
    run_process ["pget"; "-x"; url; dest] e = (e', inr 0) ->
    fs_exists dest (fs e') = true.

(** ** A concrete stand-in for the collaborators *)

Module Fixture.

Definition preprocess (a : Preprocess.args) (e : Env) : Env * Result string :=
  (with_fs e (put_path (components "./temp_in/captions.csv")
                       (File "caption,image") (fs e)),
   inr "./temp_in").

(** A preprocessor that refuses the archive. *)
Definition rejecting_preprocess (a : Preprocess.args) (e : Env)
  : Env * Result string :=
  (e, inl (CollaboratorError "not a zip or tar archive")).

Definition run_process (argv : list string) (e : Env) : Env * Result Z :=
  match argv with
  | ["pget"; "-x"; _; dest] =>
      ({| fs := put_path (components dest) (Dir {[ "unet" := Dir ∅ ]}) (fs e);
          clock := (clock e + 2.5)%float |}, inr 0)
  | _ => (e, inr 127)
  end.

Definition main (m : Main.args) (e : Env) : Env * Result unit :=
  (with_fs e (put_path
                (components (os_path_join (Main.output_dir m) "lora.safetensors"))
                (File "weights") (fs e)),
   inr tt).

(** A fresh machine. *)
Definition fresh : World :=
  {| env := {| fs := Dir ∅; clock := 0%float |}; trace := [] |}.

(** A machine that holds the weights and the output of an earlier run. *)
Definition used : World :=
  {| env := {| fs := Dir {[ "training_out" := Dir {[ "old.bin" := File "stale" ]};
                             "sdxl-cache" := Dir {[ "unet" := Dir ∅ ]} ]};
               clock := 0%float |};
     trace := [] |}.

Definition with_token (s : string) : PredictArgs :=
  {| input_images := "images.zip";
     seed := Some 7;
     resolution := 768;
     train_batch_size := 4;
     num_train_epochs := 4000;
     max_train_steps := 1000;
     unet_learning_rate := 1e-6%float;
     ti_lr := 3e-4%float;
     lora_lr := 1e-4%float;
     lora_rank := 32;
     lr_scheduler := "constant";
     lr_warmup_steps := 100;
     token_string := s;
     caption_prefix := "a photo of TOK, ";
     mask_target_prompts := None;
     crop_based_on_salience := true;
     use_face_detection_instead := false;
     clipseg_temperature := 1.0%float;
     verbose := true;
     checkpointing_steps := 999999;
     input_images_filetype := "infer" |}.

Definition with_scheduler (s : string) : PredictArgs :=
  {| input_images := "images.zip";
     seed := None;
     resolution := 768;
     train_batch_size := 4;
     num_train_epochs := 4000;
     max_train_steps := 1000;
     unet_learning_rate := 1e-6%float;
     ti_lr := 3e-4%float;
     lora_lr := 1e-4%float;
     lora_rank := 32;
     lr_scheduler := s;
     lr_warmup_steps := 100;
     token_string := "TOK";
     caption_prefix := "a photo of TOK, ";
     mask_target_prompts := None;
     crop_based_on_salience := true;
     use_face_detection_instead := false;
     clipseg_temperature := 1.0%float;
     verbose := true;
     checkpointing_steps := 999999;
     input_images_filetype := "infer" |}.

Definition run (a : PredictArgs) : M string :=
  predict preprocess run_process main a.

End Fixture.

(** ** Collaborators that fail *)

Module Faulty.

(** A [pget] that cannot reach the server. *)
Definition run_process (argv : list string) (e : Env) : Env * Result Z :=
  (e, inr 1%Z).

(** A training run that breaks off. *)
Definition main (m : Main.args) (e : Env) : Env * Result unit :=
  (e, inl (CollaboratorError "CUDA out of memory")).

(** A machine on which [training_out] is a regular file. *)
Definition blocked : World :=
  {| env := {| fs := Dir {[ "training_out" := File "notes";
                             "sdxl-cache" := Dir ∅ ]};
               clock := 0%float |};
     trace := [] |}.

(** The token map of the default trigger word. *)
Definition tok_state : BuilderState :=
  {| token_dict := [("TOK", "<s0><s1>")];
     running_tok_cnt := 2;
     all_token_lists := ["<s0>"; "<s1>"] |}.

End Faulty.

(** * Properties *)

(** ** Splitting *)

Lemma contains_cons c a s :
  PyStr.contains c (String a s) = Ascii.eqb c a || PyStr.contains c s.
Proof. reflexivity. Qed.

Lemma contains_app c s t :
  PyStr.contains c (s +:+ t) = PyStr.contains c s || PyStr.contains c t.
Proof.
  induction s as [|a s IH]; [reflexivity|].
  change (String a s +:+ t) with (String a (s +:+ t)).
  rewrite !contains_cons, IH. apply orb_assoc.
Qed.

Lemma split_absent c s :
  PyStr.contains c s = false -> PyStr.split c s = [s].
Proof.
  induction s as [|a s IH]; intros H; [reflexivity|].
  rewrite contains_cons in H. apply orb_false_elim in H as [Ha Hs].
  cbn [PyStr.split]. rewrite Ascii.eqb_sym, Ha, (IH Hs). reflexivity.
Qed.

Lemma split_absent_app c s t :
  PyStr.contains c s = false ->
  PyStr.split c (s +:+ String c t) = s :: PyStr.split c t.
Proof.
  induction s as [|a s IH]; intros H.
  - change ("" +:+ String c t) with (String c t).
    cbn [PyStr.split]. rewrite Ascii.eqb_refl. reflexivity.
  - rewrite contains_cons in H. apply orb_false_elim in H as [Ha Hs].
    change (String a s +:+ String c t) with (String a (s +:+ String c t)).
    cbn [PyStr.split]. rewrite Ascii.eqb_sym, Ha, (IH Hs). reflexivity.
Qed.

(** C1. For a non-empty trigger string without [:] and [,] the builder
    yields the dictionary [{S: "<s0><s1>"}], with the key equal to [S],
    and the token list [["<s0>", "<s1>"]]: two placeholder tokens
    numbered 0 and 1. *)
Theorem builder_plain_trigger (S : string) :
  S <> "" ->
  PyStr.contains ":" S = false ->
  PyStr.contains "," S = false ->
  build_token_map S
  = inr {| token_dict := [(S, "<s0><s1>")];
           running_tok_cnt := 2;
           all_token_lists := ["<s0>"; "<s1>"] |}.
Proof.
  intros _ Hcolon Hcomma. unfold build_token_map.
  rewrite split_absent
    by (rewrite contains_app, Hcomma; reflexivity).
  cbn [builder_loop]. unfold builder_step.
  rewrite (split_absent_app ":" S "2" Hcolon).
  reflexivity.
Qed.

Lemma builder_plain_trigger_witness :
  build_token_map "TOK"
  = inr {| token_dict := [("TOK", "<s0><s1>")];
           running_tok_cnt := 2;
           all_token_lists := ["<s0>"; "<s1>"] |}.
Proof.
  apply (builder_plain_trigger "TOK"); [discriminate | reflexivity | reflexivity].
Defined.

(** ** The monad and the log *)

Local Open Scope list_scope.

(** Unfolds a run of [predict] down to the calls of the collaborators. *)
Ltac run_unfold :=
  cbv beta iota zeta delta
    [predict prepare before_weights train_and_return resolve_weights
     reset_output_dir download_weights subprocess_check_call call_preprocess
     call_main os_path_exists shutil_rmtree os_makedirs time_time print
     env_update log effect ask lift raise mbind M_bind mret M_ret].

(** Case analysis on an innermost scrutinee of the goal. *)
Ltac run_case :=
  match goal with
  | |- context [match ?x with _ => _ end] =>
      lazymatch x with
      | context [match _ with _ => _ end] => fail
      | _ => destruct x eqn:?; simplify_eq/=
      end
  end.

(** Brings a log [((t ++ [e1]) ++ [e2]) ++ ...] to the form [t ++ evs]. *)
Ltac log_assoc := rewrite <- ?app_assoc; cbn [app].

Lemma new_events_app (w w' : World) (evs : list Event) :
  trace w' = trace w ++ evs -> new_events w w' = evs.
Proof. intros H. unfold new_events. rewrite H. apply drop_app_length. Qed.

Section Runs.

Variable preprocess : Preprocess.args -> Env -> Env * Result string.
Variable run_process : list string -> Env -> Env * Result Z.
Variable main : Main.args -> Env -> Env * Result unit.

Lemma bind_run {A B : Type} (m : M A) (f : A -> M B) (w : World) :
  (m ≫= f) w
  = match m w with
    | (w', inl e) => (w', inl e)
    | (w', inr x) => f x w'
    end.
Proof. reflexivity. Qed.

Lemma bind_assoc {A B C : Type} (m : M A) (f : A -> M B) (g : B -> M C) w :
  ((m ≫= f) ≫= g) w = (m ≫= (fun x => f x ≫= g)) w.
Proof. rewrite !bind_run. destruct (m w) as [w' [e|x]]; reflexivity. Qed.

(** [predict] is [prepare] followed by [train_and_return]. *)
Lemma predict_split (a : PredictArgs) (w : World) :
  predict preprocess run_process main a w
  = (prepare preprocess run_process a ≫= train_and_return main a) w.
Proof.
  unfold predict, prepare, before_weights, train_and_return.
  rewrite !bind_run.
  destruct (lift (build_token_map (token_string a)) w) as [w0 [e|st]];
    [reflexivity|].
  rewrite !bind_run.
  destruct (call_preprocess preprocess (preprocess_args a st) w0)
    as [w1 [e|d]]; [reflexivity|].
  cbn [mret M_ret]. rewrite !bind_run.
  destruct (resolve_weights run_process w1) as [w2 [e|[]]]; [reflexivity|].
  rewrite !bind_run.
  destruct (reset_output_dir w2) as [w3 [e|[]]]; reflexivity.
Qed.


(** Reads off the events of a run whose log is in [log_assoc] form. *)
Ltac log_read :=
  erewrite new_events_app
    by (cbn [trace]; log_assoc;
        first [reflexivity | symmetry; apply app_nil_r]).

(** The training routine is called once an invocation has got through
    its first four steps. *)
Lemma training_called (a : PredictArgs) (w w3 : World)
    (r : BuilderState * string) :
  prepare preprocess run_process a w = (w3, inr r) ->
  main_calls (new_events w (predict preprocess run_process main a w).1)
  = [main_args a r.1 r.2].
Proof.
  run_unfold. repeat run_case.
  all: intros; simplify_eq/=.
  all: log_read; reflexivity.
Qed.

(** C7. An invocation either ends in one of its first four steps,
    and then the training routine is not called, or it runs the
    training routine, once, on the record below: every hyperparameter
    of the caller unchanged, together with the fixed settings
    [gradient_accumulation_steps=1], [scale_lr=False],
    [max_grad_norm=1.0], [allow_tf32=True], [mixed_precision="bf16"],
    [device="cuda:0"], [is_lora=True]; what the invocation then does
    is what the training routine does with that record. *)
Theorem hyperparameters_passed_verbatim (a : PredictArgs) (w : World) :
  match prepare preprocess run_process a w with
  | (w3, inl e) =>
      predict preprocess run_process main a w = (w3, inl e)
      /\ main_calls (new_events w w3) = []
  | (w3, inr r) =>
      let m :=
        {| Main.pretrained_model_name_or_path := "./sdxl-cache";
           Main.instance_data_dir := os_path_join r.2 "captions.csv";
           Main.output_dir := "training_out";
           Main.seed := seed a;
           Main.resolution := resolution a;
           Main.train_batch_size := train_batch_size a;
           Main.num_train_epochs := num_train_epochs a;
           Main.max_train_steps := max_train_steps a;
           Main.gradient_accumulation_steps := 1;
           Main.unet_learning_rate := unet_learning_rate a;
           Main.ti_lr := ti_lr a;
           Main.lora_lr := lora_lr a;
           Main.lr_scheduler := lr_scheduler a;
           Main.lr_warmup_steps := lr_warmup_steps a;
           Main.token_dict := token_dict r.1;
           Main.inserting_list_tokens := all_token_lists r.1;
           Main.verbose := verbose a;
           Main.checkpointing_steps := checkpointing_steps a;
           Main.scale_lr := false;
           Main.max_grad_norm := 1.0%float;
           Main.allow_tf32 := true;
           Main.mixed_precision := "bf16";
           Main.device := "cuda:0";
           Main.lora_rank := lora_rank a;
           Main.is_lora := true |} in
      predict preprocess run_process main a w
      = ({| env := (main m (env w3)).1; trace := trace w3 ++ [EvMain m] |},
         match (main m (env w3)).2 with
         | inl e => inl e
         | inr _ => inr "training_out/lora.safetensors"
         end)
      /\ main_calls
           (new_events w (predict preprocess run_process main a w).1)
         = [m]
  end.
Proof.
  destruct (prepare preprocess run_process a w) as [w3 [e|r]] eqn:Hprep.
  - split; [by rewrite predict_split, bind_run, Hprep|].
    revert Hprep. run_unfold. repeat run_case.
    all: intros; simplify_eq/=.
    all: erewrite new_events_app
           by (cbn [trace]; log_assoc;
               first [reflexivity | symmetry; apply app_nil_r]).
    all: reflexivity.
  - cbv zeta. split.
    + rewrite predict_split, bind_run, Hprep.
      unfold train_and_return, call_main. run_unfold. cbn [env trace].
      by destruct (main _ (env w3)) as [e4 [err|[]]].
    + exact (training_called a w w3 r Hprep).
Qed.

(** ** The weights cache *)

(** After the resolver has returned, the cache directory is there:
    it was there already, or [pget] has just extracted it. *)
Lemma resolve_weights_leaves_cache (w1 w2 : World) :
  pget_extracts run_process ->
  resolve_weights run_process w1 = (w2, inr tt) ->
  fs_exists SDXL_MODEL_CACHE (fs (env w2)) = true.
Proof.
  intros Hpget. run_unfold. repeat run_case.
  all: intros; simplify_eq/=; try done.
  - match goal with
    | H : (_ =? 0)%Z = true |- _ => apply Z.eqb_eq in H; subst
    end.
    eapply Hpget; eassumption.
  - by destruct (fs_exists SDXL_MODEL_CACHE (fs (env w1))).
Qed.

(** C3, as the code has it.  For an invocation that has reached the
    look-up of the weights cache (token map built, preprocessing
    returned): when [./sdxl-cache] exists no download is started; when
    it does not, exactly one is, [pget -x] with the SDXL URL and that
    path, and, [pget] keeping its contract, the directory exists after
    the resolver has returned. *)
Theorem weights_cache_resolved (a : PredictArgs) (w w1 : World)
    (r : BuilderState * string) :
  before_weights preprocess a w = (w1, inr r) ->
  (fs_exists SDXL_MODEL_CACHE (fs (env w1)) = true ->
     check_calls (new_events w (predict preprocess run_process main a w).1) = [])
  /\ (fs_exists SDXL_MODEL_CACHE (fs (env w1)) = false ->
     check_calls (new_events w (predict preprocess run_process main a w).1)
     = [["pget"; "-x"; SDXL_URL; SDXL_MODEL_CACHE]]
     /\ (pget_extracts run_process ->
         forall w2, resolve_weights run_process w1 = (w2, inr tt) ->
                    fs_exists SDXL_MODEL_CACHE (fs (env w2)) = true)).
Proof.
  intros Hreach. split; [|intros Hmiss; split].
  3: { intros Hpget w2. by apply resolve_weights_leaves_cache. }
  all: revert Hreach; run_unfold; repeat run_case.
  all: intros; simplify_eq/=.
  all: try match goal with
       | H1 : negb ?x = _, H2 : ?x = _ |- _ => by rewrite H2 in H1
       end.
  all: log_read; reflexivity.
Qed.

(** Whatever happens, a run starts at most the one download. *)
Lemma download_at_most_once (a : PredictArgs) (w : World) :
  let calls :=
    check_calls (new_events w (predict preprocess run_process main a w).1) in
  calls = [] \/ calls = [["pget"; "-x"; SDXL_URL; SDXL_MODEL_CACHE]].
Proof.
  run_unfold. repeat run_case.
  all: log_read; cbn; auto.
Qed.

(** ** The output directory *)

Lemma reset_output_dir_empties (w w' : World) :
  reset_output_dir w = (w', inr tt) ->
  fs_lookup OUTPUT_DIR (fs (env w')) = Some (Dir ∅).
Proof.
  run_unfold. unfold fs_exists, fs_rmtree, fs_makedirs, fs_lookup.
  change (components OUTPUT_DIR) with ["training_out"].
  cbn [lookup_path remove_path make_path env fs trace with_fs].
  repeat run_case.
  all: intros; simplify_eq/=.
  all: repeat match goal with
       | H : context [<[_:=_]> _ !! _] |- _ => rewrite lookup_insert_eq in H
       | H : context [delete _ _ !! _] |- _ => rewrite lookup_delete_eq in H
       end.
  all: by simplify_eq.
Qed.

Lemma prepare_ends_with_reset (a : PredictArgs) (w w3 : World)
    (r : BuilderState * string) :
  prepare preprocess run_process a w = (w3, inr r) ->
  exists w2, reset_output_dir w2 = (w3, inr tt).
Proof.
  unfold prepare. rewrite bind_run.
  destruct (before_weights preprocess a w) as [w1 [e|r']]; [done|].
  rewrite bind_run.
  destruct (resolve_weights run_process w1) as [w2 [e|[]]]; [done|].
  rewrite bind_run.
  destruct (reset_output_dir w2) as [w3' [e|[]]] eqn:Hreset; [done|].
  intros [= <- <-]. by exists w2.
Qed.

Lemma train_and_return_env (a : PredictArgs) (r : BuilderState * string)
    (w3 w' : World) (p : string) :
  train_and_return main a r w3 = (w', inr p) ->
  main (main_args a r.1 r.2) (env w3) = (env w', inr tt)
  /\ p = "training_out/lora.safetensors".
Proof.
  run_unfold. repeat run_case. all: intros; simplify_eq/=.
  by destruct u.
Qed.

(** The reset as an equation on the tree. *)
Lemma reset_output_dir_eq (w : World) (children : gmap string Node) :
  fs (env w) = Dir children ->
  (forall c, children !! "training_out" <> Some (File c)) ->
  reset_output_dir w
  = ({| env := with_fs (env w) (Dir (<["training_out" := Dir ∅]> children));
        trace := trace w
                 ++ EvExists OUTPUT_DIR
                    :: match children !! "training_out" with
                       | Some _ => [EvRmtree OUTPUT_DIR]
                       | None => []
                       end
                    ++ [EvMakedirs OUTPUT_DIR] |},
     inr tt).
Proof.
  intros Hfs Hfile. run_unfold.
  unfold fs_exists, fs_rmtree, fs_makedirs, fs_lookup.
  change (components OUTPUT_DIR) with ["training_out"].
  destruct (children !! "training_out") as [[c|sub]|] eqn:Hout;
    [by destruct (Hfile c)|..].
  all: repeat (rewrite ?Hfs, ?Hout, ?lookup_delete_eq;
               cbn [lookup_path remove_path make_path env fs trace with_fs]).
  all: rewrite ?insert_delete_eq, <- ?app_assoc; reflexivity.
Qed.

(** C2, as the code has it.  The output directory is reset as the
    fourth step, right before training, by an invocation whose first
    three steps (token map, preprocessing, weights cache) have
    returned.  When [training_out] is absent or a directory it is
    removed if it was there and made anew, and the training routine
    runs on exactly that state, with [training_out] an empty
    directory: nothing that was at that path before the invocation is
    there when training starts, whatever world the invocation started
    from, the one an earlier invocation left behind included.  When
    [training_out] is a regular file [shutil.rmtree] raises, and when
    the working directory is no directory [os.makedirs] does; the
    training routine is not called then.  An invocation that fails in
    one of its first three steps removes nothing, creates nothing and
    does not train. *)
Theorem output_dir_reset_before_training (a : PredictArgs) (w : World) :
  let untouched (w' : World) (e : PyError) :=
    predict preprocess run_process main a w = (w', inl e)
    /\ rmtree_calls (new_events w w') = []
    /\ makedirs_calls (new_events w w') = []
    /\ main_calls (new_events w w') = [] in
  match before_weights preprocess a w with
  | (w1, inl e) => untouched w1 e
  | (w1, inr r) =>
      match resolve_weights run_process w1 with
      | (w2, inl e) => untouched w2 e
      | (w2, inr _) =>
          let reset (present : bool) (children : gmap string Node) :=
            let e3 :=
              with_fs (env w2) (Dir (<["training_out" := Dir ∅]> children)) in
            let m := main_args a r.1 r.2 in
            fs_lookup OUTPUT_DIR (fs e3) = Some (Dir ∅)
            /\ predict preprocess run_process main a w
               = ({| env := (main m e3).1;
                     trace := trace w2 ++ reset_log present ++ [EvMain m] |},
                  match (main m e3).2 with
                  | inl e => inl e
                  | inr _ => inr "training_out/lora.safetensors"
                  end) in
          match fs (env w2) with
          | Dir children =>
              match children !! "training_out" with
              | None => reset false children
              | Some (Dir _) => reset true children
              | Some (File _) =>
                  predict preprocess run_process main a w
                  = ({| env := env w2;
                        trace := trace w2
                                 ++ [EvExists OUTPUT_DIR; EvRmtree OUTPUT_DIR] |},
                     inl NotADirectoryError)
              end
          | File _ =>
              predict preprocess run_process main a w
              = ({| env := env w2;
                    trace := trace w2
                             ++ [EvExists OUTPUT_DIR; EvMakedirs OUTPUT_DIR] |},
                 inl NotADirectoryError)
          end
      end
  end.
Proof.
  cbv zeta.
  destruct (before_weights preprocess a w) as [w1 [e|r]] eqn:Hbefore.
  { split.
    - rewrite predict_split, bind_run. unfold prepare.
      by rewrite bind_run, Hbefore.
    - revert Hbefore. run_unfold. repeat run_case.
      all: intros; simplify_eq/=.
      all: log_read; done. }
  destruct (resolve_weights run_process w1) as [w2 [e|[]]] eqn:Hresolve.
  { split.
    - rewrite predict_split, bind_run. unfold prepare.
      by rewrite bind_run, Hbefore, bind_run, Hresolve.
    - revert Hbefore Hresolve. run_unfold. repeat run_case.
      all: intros; simplify_eq/=.
      all: log_read; done. }
  assert (forall w3 res,
             reset_output_dir w2 = (w3, res) ->
             predict preprocess run_process main a w
             = match res with
               | inl e => (w3, inl e)
               | inr _ => train_and_return main a r w3
               end) as Hpredict.
  { intros w3 res Hreset. rewrite predict_split, bind_run. unfold prepare.
    rewrite bind_run, Hbefore, bind_run, Hresolve, bind_run, Hreset.
    by destruct res as [e|[]]. }
  destruct (fs (env w2)) as [c|children] eqn:Hfs.
  { apply (Hpredict _ (inl NotADirectoryError)). run_unfold.
    unfold fs_exists, fs_makedirs, fs_lookup.
    change (components OUTPUT_DIR) with ["training_out"].
    repeat (rewrite ?Hfs; cbn [lookup_path make_path env fs trace with_fs]).
    by rewrite <- app_assoc. }
  destruct (children !! "training_out") as [[c|sub]|] eqn:Hout.
  { apply (Hpredict _ (inl NotADirectoryError)). run_unfold.
    unfold fs_exists, fs_rmtree, fs_lookup.
    change (components OUTPUT_DIR) with ["training_out"].
    repeat (rewrite ?Hfs, ?Hout; cbn [lookup_path env fs trace with_fs]).
    by rewrite <- app_assoc. }
  all: split;
    [unfold fs_lookup; change (components OUTPUT_DIR) with ["training_out"];
     cbn [with_fs fs lookup_path]; by rewrite lookup_insert_eq|].
  all: erewrite (Hpredict _ (inr tt))
    by (apply (reset_output_dir_eq _ children Hfs); congruence).
  all: rewrite Hout.
  all: unfold train_and_return, call_main; run_unfold; cbn [env trace].
  all: destruct (main _ _) as [e4 [err|[]]]; cbn [fst snd].
  all: unfold reset_log; by rewrite <- ?app_assoc.
Qed.

(** ** The returned artifact *)

(** C5. Provided the training routine keeps its contract, an
    invocation that returns returns [training_out/lora.safetensors],
    and that path then holds a regular, non-empty file. *)
Theorem artifact_returned (a : PredictArgs) (w w' : World) (p : string) :
  training_writes_artifact main ->
  predict preprocess run_process main a w = (w', inr p) ->
  p = "training_out/lora.safetensors"
  /\ exists content,
       fs_lookup p (fs (env w')) = Some (File content) /\ content <> "".
Proof.
  intros Hmain. rewrite predict_split, bind_run.
  destruct (prepare preprocess run_process a w) as [w3 [e|r]]; [done|].
  intros Htrain. apply train_and_return_env in Htrain as [Hrun ->].
  split; [done|]. by apply Hmain in Hrun.
Qed.

(** ** The declared choices *)

(** C9. Through the serving runtime, a scheduler outside
    [constant]/[linear] or a file type outside [zip]/[tar]/[infer] is
    refused before [predict] has done anything: the world is the one
    the invocation started in. *)
Theorem unsupported_choice_rejected (a : PredictArgs) (w : World) :
  is_choice (lr_scheduler a) lr_scheduler_choices = false
  \/ is_choice (input_images_filetype a) input_images_filetype_choices = false ->
  exists field,
    invoke preprocess run_process main a w = (w, inl (ValidationError field)).
Proof.
  unfold invoke, check_choices. rewrite bind_run. cbn [lift].
  intros [H|H]; rewrite ?H; cbn [negb]; [by eexists|].
  destruct (is_choice (lr_scheduler a) lr_scheduler_choices);
    by eexists.
Qed.

(** With both values among the declared choices the check is passed
    and [predict] runs. *)
Lemma supported_choice_accepted (a : PredictArgs) (w : World) :
  is_choice (lr_scheduler a) lr_scheduler_choices = true ->
  is_choice (input_images_filetype a) input_images_filetype_choices = true ->
  invoke preprocess run_process main a w
  = predict preprocess run_process main a w.
Proof.
  intros H1 H2. unfold invoke, check_choices.
  rewrite bind_run. cbn [lift]. by rewrite H1, H2.
Qed.

(** [predict] itself does not look at the choices: what it is given
    is what the training routine is called with. *)
Lemma predict_ignores_choices (a : PredictArgs) (w w3 : World)
    (r : BuilderState * string) :
  prepare preprocess run_process a w = (w3, inr r) ->
  exists m,
    main_calls (new_events w (predict preprocess run_process main a w).1) = [m]
    /\ Main.lr_scheduler m = lr_scheduler a.
Proof.
  intros Hprep. eexists. split; [by eapply training_called|done].
Qed.

End Runs.

(** ** The token map builder *)

Lemma split_cons c s :
  PyStr.split c s
  = before_first c s
      :: (if PyStr.contains c s then PyStr.split c (after_first c s) else []).
Proof.
  induction s as [|a s IH]; [reflexivity|].
  cbn [PyStr.split before_first after_first]. rewrite contains_cons.
  rewrite (Ascii.eqb_sym c a).
  destruct (Ascii.eqb a c); [reflexivity|].
  rewrite IH. reflexivity.
Qed.

Lemma before_first_app c s t :
  PyStr.contains c s = true -> before_first c (s +:+ t) = before_first c s.
Proof.
  induction s as [|a s IH]; [discriminate|].
  rewrite contains_cons, (Ascii.eqb_sym c a).
  change (String a s +:+ t) with (String a (s +:+ t)).
  cbn [before_first]. destruct (Ascii.eqb a c); [reflexivity|].
  cbn [orb]. intros H. by rewrite IH.
Qed.

(** The second field of an entry that has a colon is its count text. *)
Lemma split_colon_fields token :
  PyStr.contains ":" token = true ->
  exists more,
    PyStr.split ":" token = before_first ":" token :: count_text token :: more.
Proof.
  intros H. rewrite split_cons, H, split_cons. by eexists.
Qed.

Lemma builder_step_error st token e :
  builder_step st token = inl e -> e = IndexError \/ e = ValueError.
Proof.
  unfold builder_step, PyStr.index, PyStr.int.
  repeat run_case; intros; simplify_eq; auto.
Qed.

Lemma builder_loop_error tokens : forall st e,
  builder_loop st tokens = inl e -> e = IndexError \/ e = ValueError.
Proof.
  induction tokens as [|token tokens IH]; intros st e; cbn; [done|].
  destruct (builder_step st token) as [e'|st'] eqn:Hstep.
  - intros [= <-]. by eapply builder_step_error.
  - apply IH.
Qed.

(** What one iteration does to the running count and the token list. *)
Lemma builder_step_continues st token st' :
  builder_step st token = inr st' ->
  exists n,
    entry_count token = Some n
    /\ running_tok_cnt st' = running_tok_cnt st + n
    /\ all_token_lists st'
       = all_token_lists st ++ placeholders (running_tok_cnt st) n.
Proof.
  unfold builder_step, entry_count, PyStr.index, PyStr.int.
  destruct (PyStr.split ":" token) as [|key [|field more]]; cbn; try done.
  destruct (PyStr.parse_int field) as [n|]; [|done].
  intros [= <-]. by exists n.
Qed.

Lemma builder_loop_app tokens1 : forall st tokens2,
  builder_loop st (tokens1 ++ tokens2)
  = match builder_loop st tokens1 with
    | inl e => inl e
    | inr st' => builder_loop st' tokens2
    end.
Proof.
  induction tokens1 as [|t tokens1 IH]; intros st tokens2; cbn; [done|].
  destruct (builder_step st t); [done|]. apply IH.
Qed.

(** *** Placeholder names are pairwise distinct *)

Lemma string_snoc_inj (x y : string) (c : ascii) :
  x +:+ String c "" = y +:+ String c "" -> x = y.
Proof.
  revert y. induction x as [|a x IH]; intros [|b y]; cbn; intros H.
  - done.
  - injection H as _ H. by destruct y.
  - injection H as _ H. by destruct x.
  - injection H as -> H. f_equal. by apply IH.
Qed.

Lemma to_int_proper (z : Z) : Z.to_int z <> Pos Nil /\ Z.to_int z <> Neg Nil.
Proof.
  destruct z as [|p|p]; cbn; split; try done.
  - intros [= H]. by apply (DecimalPos.Unsigned.to_uint_nonnil p).
  - intros [= H]. by apply (DecimalPos.Unsigned.to_uint_nonnil p).
Qed.

#[local] Instance str_inj : Inj (=) (=) PyStr.str.
Proof.
  intros z1 z2 H. unfold PyStr.str in H.
  apply (f_equal NilZero.int_of_string) in H.
  destruct (to_int_proper z1), (to_int_proper z2).
  rewrite !NilZero.isi in H by done.
  injection H as H. apply (f_equal Z.of_int) in H.
  by rewrite !DecimalZ.of_to in H.
Qed.

#[local] Instance placeholder_inj running : Inj (=) (=) (placeholder running).
Proof.
  intros i j H. unfold placeholder in H.
  injection H as H. apply string_snoc_inj, str_inj in H. lia.
Qed.



Lemma placeholders_length (first n : Z) :
  length (placeholders first n) = Z.to_nat n.
Proof. unfold placeholders, PyStr.range. by rewrite length_fmap, length_seqZ. Qed.



(** ** The trigger string is taken as it comes *)

Section Validation.

Variable preprocess : Preprocess.args -> Env -> Env * Result string.
Variable run_process : list string -> Env -> Env * Result Z.
Variable main : Main.args -> Env -> Env * Result unit.

Lemma predict_builder_error (a : PredictArgs) (w : World) (e : PyError) :
  build_token_map (token_string a) = inl e ->
  predict preprocess run_process main a w = (w, inl e).
Proof.
  intros H. unfold predict. rewrite bind_run. cbn [lift]. by rewrite H.
Qed.

Lemma predict_starts_with_preprocess (a : PredictArgs) (w : World)
    (st : BuilderState) :
  build_token_map (token_string a) = inr st ->
  exists evs,
    trace (predict preprocess run_process main a w).1
    = trace w ++ EvPreprocess (preprocess_args a st) :: evs.
Proof.
  run_unfold. repeat run_case.
  all: intros; simplify_eq/=.
  all: eexists; log_assoc; reflexivity.
Qed.

(** C4, as the code has it.  [predict] does not validate the trigger
    string.  An empty one yields the key [""] and preprocessing is
    called with it; in general the invocation stops before any call
    exactly when the builder itself raises, with [IndexError] or
    [ValueError], and goes on to preprocessing otherwise. *)
Theorem token_string_not_validated (a : PredictArgs) (w : World) :
  (token_string a = "" ->
     exists st evs,
       build_token_map (token_string a) = inr st
       /\ token_dict st = [("", "<s0><s1>")]
       /\ Preprocess.substitution_tokens (preprocess_args a st) = [""]
       /\ trace (predict preprocess run_process main a w).1
          = trace w ++ EvPreprocess (preprocess_args a st) :: evs)
  /\ (forall e,
        build_token_map (token_string a) = inl e ->
        predict preprocess run_process main a w = (w, inl e)
        /\ (e = IndexError \/ e = ValueError))
  /\ (forall st,
        build_token_map (token_string a) = inr st ->
        exists evs,
          trace (predict preprocess run_process main a w).1
          = trace w ++ EvPreprocess (preprocess_args a st) :: evs).
Proof.
  split; [|split].
  - intros Hempty.
    assert (build_token_map (token_string a)
            = inr {| token_dict := [("", "<s0><s1>")];
                     running_tok_cnt := 2;
                     all_token_lists := ["<s0>"; "<s1>"] |}) as Hbuild
      by (by rewrite Hempty).
    destruct (predict_starts_with_preprocess a w _ Hbuild) as [evs Hevs].
    by eexists _, evs.
  - intros e Hbuild. split; [by apply predict_builder_error|].
    by eapply builder_loop_error.
  - apply predict_starts_with_preprocess.
Qed.

(** C10, as the code has it.  For a trigger string with a colon and
    without a comma, the count is the text between the first and the
    second colon of [token_string + ":2"]: when it reads as the integer
    [k], the builder makes the one entry keyed by the text before the
    first colon, with [k] tokens numbered from 0 (none when [k] is
    negative); when it does not, [predict] raises [ValueError] and no
    collaborator has been called. *)
Theorem colon_count_override (S : string) :
  PyStr.contains ":" S = true ->
  PyStr.contains "," S = false ->
  match PyStr.parse_int (count_text (S +:+ ":2")) with
  | Some k =>
      build_token_map S
      = inr {| token_dict :=
                 [(before_first ":" S, PyStr.join (placeholders 0 k))];
               running_tok_cnt := k;
               all_token_lists := placeholders 0 k |}
      /\ length (placeholders 0 k) = Z.to_nat k
  | None =>
      forall a w, token_string a = S ->
        predict preprocess run_process main a w = (w, inl ValueError)
  end.
Proof.
  intros Hcolon Hcomma.
  assert (PyStr.contains ":" (S +:+ ":2") = true) as Hcolon'
    by (by rewrite contains_app, Hcolon).
  destruct (split_colon_fields _ Hcolon') as [more Hsplit].
  rewrite (before_first_app _ _ _ Hcolon) in Hsplit.
  assert (build_token_map S
          = builder_step builder_init (S +:+ ":2")) as Hbuild.
  { unfold build_token_map.
    rewrite split_absent by (by rewrite contains_app, Hcomma).
    cbn [builder_loop]. by destruct (builder_step _ _). }
  unfold builder_step in Hbuild. rewrite Hsplit in Hbuild.
  cbn [PyStr.index nth_error] in Hbuild. unfold PyStr.int in Hbuild.
  destruct (PyStr.parse_int (count_text (S +:+ ":2"))) as [k|].
  - split; [by rewrite Hbuild|apply placeholders_length].
  - intros a w <-. by apply predict_builder_error.
Qed.

End Validation.

(** ** The stand-in collaborators keep the contracts *)

Lemma lookup_put_path (p : list string) (v : Node) : forall n,
  lookup_path p (put_path p v n) = Some v.
Proof.
  induction p as [|c p IH]; intros n; [done|].
  destruct n as [content|children]; cbn [put_path lookup_path].
  - by rewrite lookup_singleton_eq.
  - by rewrite lookup_insert_eq.
Qed.

Lemma fixture_pget_extracts : pget_extracts Fixture.run_process.
Proof.
  intros url dest e e' [= <-]. unfold fs_exists, fs_lookup. cbn [fs].
  by rewrite lookup_put_path.
Qed.

Lemma fixture_training_writes_artifact :
  training_writes_artifact Fixture.main.
Proof.
  intros m e e' [= <-]. exists "weights". split; [|done].
  unfold fs_lookup. cbn [fs with_fs]. apply lookup_put_path.
Qed.

(** ** Concrete runs *)

(** C2, the claim as stated fails: an invocation that raises in one of
    its first steps (here the builder, then the preprocessor) never
    looks at the output directory, and the file an earlier run left
    there is still in place afterwards. *)
Lemma stale_output_survives_failed_run :
  let run := Fixture.run (Fixture.with_token "a,b") Fixture.used in
  let run' := predict Fixture.rejecting_preprocess Fixture.run_process
                Fixture.main (Fixture.with_token "TOK") Fixture.used in
  (run.2 = inl IndexError
   /\ fs_lookup "training_out/old.bin" (fs (env run.1)) = Some (File "stale")
   /\ rmtree_calls (trace run.1) = []
   /\ makedirs_calls (trace run.1) = [])
  /\ (run'.2 = inl (CollaboratorError "not a zip or tar archive")
      /\ fs_lookup "training_out/old.bin" (fs (env run'.1))
         = Some (File "stale")
      /\ rmtree_calls (trace run'.1) = []
      /\ makedirs_calls (trace run'.1) = []).
Proof. vm_compute. repeat split. Qed.

(** C3, the claim as stated fails.  With the cache missing, an
    invocation that raises in the builder makes no download call, and
    one whose [pget] exits with status 1 makes the one call and leaves
    no directory behind. *)
Lemma download_skipped_or_fruitless :
  let run := Fixture.run (Fixture.with_token "a,b") Fixture.fresh in
  let run' := predict Fixture.preprocess Faulty.run_process Fixture.main
                (Fixture.with_token "TOK") Fixture.fresh in
  fs_exists SDXL_MODEL_CACHE (fs (env Fixture.fresh)) = false
  /\ (run.2 = inl IndexError
      /\ check_calls (trace run.1) = []
      /\ fs_exists SDXL_MODEL_CACHE (fs (env run.1)) = false)
  /\ (run'.2 = inl (CalledProcessError 1)
      /\ check_calls (trace run'.1)
         = [["pget"; "-x"; SDXL_URL; SDXL_MODEL_CACHE]]
      /\ fs_exists SDXL_MODEL_CACHE (fs (env run'.1)) = false).
Proof. vm_compute. repeat split. Qed.

(** C4, the claim as stated fails: an empty trigger string, and one
    with colons and commas, go through preprocessing and training. *)
Lemma empty_token_string_accepted :
  let run := Fixture.run (Fixture.with_token "") Fixture.fresh in
  run.2 = inr "training_out/lora.safetensors"
  /\ Preprocess.substitution_tokens <$> preprocess_calls (trace run.1) = [[""]]
  /\ (Fixture.run (Fixture.with_token "a:3,b") Fixture.fresh).2
     = inr "training_out/lora.safetensors".
Proof. vm_compute. repeat split. Qed.


(** C10, the claim as stated fails: with a comma in the trigger string
    the text between the first two colons is not what is counted (here
    it is no integer, and yet nothing is raised); and a negative count
    yields no token. *)
Lemma comma_defeats_count_text :
  PyStr.contains ":" "a:1,b:5" = true
  /\ PyStr.parse_int (count_text ("a:1,b:5" +:+ ":2")) = None
  /\ build_token_map "a:1,b:5"
     = inr {| token_dict := [("a", "<s0>"); ("b", "<s1><s2><s3><s4><s5>")];
              running_tok_cnt := 6;
              all_token_lists :=
                ["<s0>"; "<s1>"; "<s2>"; "<s3>"; "<s4>"; "<s5>"] |}
  /\ PyStr.parse_int (count_text ("a:-1" +:+ ":2")) = Some (-1)
  /\ build_token_map "a:-1"
     = inr {| token_dict := [("a", "")];
              running_tok_cnt := -1;
              all_token_lists := [] |}.
Proof. vm_compute. repeat split. Qed.

(** ** The theorems at work on a concrete machine *)


Lemma hyperparameters_passed_verbatim_witness :
  let run := Fixture.run (Fixture.with_token "TOK") Fixture.used in
  let m := main_args (Fixture.with_token "TOK") Faulty.tok_state "./temp_in" in
  main_calls (new_events Fixture.used run.1) = [m]
  /\ fs_lookup "training_out/lora.safetensors" (fs (env run.1))
     = Some (File "weights")
  /\ (Main.seed m = Some 7%Z
      /\ Main.lora_rank m = 32%Z
      /\ Main.lr_scheduler m = "constant"
      /\ Main.mixed_precision m = "bf16"
      /\ Main.is_lora m = true).
Proof.
  intros run m.
  pose proof (hyperparameters_passed_verbatim Fixture.preprocess
                Fixture.run_process Fixture.main
                (Fixture.with_token "TOK") Fixture.used) as Htrain.
  destruct (prepare Fixture.preprocess Fixture.run_process
              (Fixture.with_token "TOK") Fixture.used)
    as [w3 [e|r]] eqn:Hprepare; [by vm_compute in Hprepare|].
  assert (r = (Faulty.tok_state, "./temp_in")) as ->
    by (vm_compute in Hprepare; by simplify_eq).
  cbv zeta in Htrain. destruct Htrain as [Hrun Hcalls].
  split; [exact Hcalls|]. split; [|by repeat split].
  unfold run, Fixture.run. rewrite Hrun.
  assert (env w3 = (prepare Fixture.preprocess Fixture.run_process
              (Fixture.with_token "TOK") Fixture.used).1.(env)) as ->
    by (by rewrite Hprepare).
  vm_compute. reflexivity.
Defined.

Lemma weights_cache_resolved_witness :
  let a := Fixture.with_token "TOK" in
  let w1 := (before_weights Fixture.preprocess a Fixture.fresh).1 in
  check_calls (new_events Fixture.fresh (Fixture.run a Fixture.fresh).1)
  = [["pget"; "-x"; SDXL_URL; SDXL_MODEL_CACHE]]
  /\ fs_exists SDXL_MODEL_CACHE
       (fs (env (resolve_weights Fixture.run_process w1).1)) = true.
Proof.
  intros a w1.
  destruct (weights_cache_resolved Fixture.preprocess Fixture.run_process
              Fixture.main a Fixture.fresh w1
              ({| token_dict := [("TOK", "<s0><s1>")];
                  running_tok_cnt := 2;
                  all_token_lists := ["<s0>"; "<s1>"] |}, "./temp_in"))
    as [_ Hmissing].
  { vm_compute. reflexivity. }
  destruct Hmissing as [Hcall Hthere]; [vm_compute; reflexivity|].
  split; [exact Hcall|].
  apply Hthere; [exact fixture_pget_extracts|].
  vm_compute. reflexivity.
Defined.

Lemma output_dir_reset_before_training_witness :
  let run := Fixture.run (Fixture.with_token "TOK") Fixture.used in
  fs_lookup "training_out/old.bin" (fs (env Fixture.used))
  = Some (File "stale")
  /\ run.2 = inr "training_out/lora.safetensors"
  /\ fs_lookup "training_out/old.bin" (fs (env run.1)) = None
  /\ fs_lookup "training_out/lora.safetensors" (fs (env run.1))
     = Some (File "weights")
  /\ rmtree_calls (trace run.1) = ["training_out"]
  /\ makedirs_calls (trace run.1) = ["training_out"].
Proof.
  intros run. split; [vm_compute; reflexivity|].
  pose proof (output_dir_reset_before_training Fixture.preprocess
                Fixture.run_process Fixture.main
                (Fixture.with_token "TOK") Fixture.used) as Hreset.
  unfold run, Fixture.run.
  remember (predict Fixture.preprocess Fixture.run_process Fixture.main
              (Fixture.with_token "TOK") Fixture.used) as result eqn:Hresult.
  vm_compute in Hreset. destruct Hreset as [_ ->].
  vm_compute. repeat split.
Defined.

Lemma artifact_returned_witness :
  exists content,
    fs_lookup "training_out/lora.safetensors"
      (fs (env (Fixture.run (Fixture.with_token "TOK") Fixture.fresh).1))
    = Some (File content)
    /\ content <> "".
Proof.
  apply (artifact_returned Fixture.preprocess Fixture.run_process
           Fixture.main (Fixture.with_token "TOK") Fixture.fresh
           (Fixture.run (Fixture.with_token "TOK") Fixture.fresh).1
           "training_out/lora.safetensors").
  - exact fixture_training_writes_artifact.
  - vm_compute. reflexivity.
Defined.

Lemma unsupported_choice_rejected_witness :
  exists field,
    invoke Fixture.preprocess Fixture.run_process Fixture.main
      (Fixture.with_scheduler "cosine") Fixture.fresh
    = (Fixture.fresh, inl (ValidationError field)).
Proof.
  apply (unsupported_choice_rejected Fixture.preprocess Fixture.run_process
           Fixture.main (Fixture.with_scheduler "cosine") Fixture.fresh).
  left. reflexivity.
Defined.

Lemma token_string_not_validated_witness :
  exists st evs,
    build_token_map "" = inr st
    /\ token_dict st = [("", "<s0><s1>")]
    /\ Preprocess.substitution_tokens
         (preprocess_args (Fixture.with_token "") st) = [""]
    /\ trace (Fixture.run (Fixture.with_token "") Fixture.fresh).1
       = trace Fixture.fresh
         ++ EvPreprocess (preprocess_args (Fixture.with_token "") st) :: evs.
Proof.
  destruct (token_string_not_validated Fixture.preprocess Fixture.run_process
              Fixture.main (Fixture.with_token "") Fixture.fresh)
    as [Hempty _].
  apply Hempty. reflexivity.
Defined.


Lemma colon_count_override_witness :
  build_token_map "TOK:3"
  = inr {| token_dict := [("TOK", PyStr.join (placeholders 0 3))];
           running_tok_cnt := 3;
           all_token_lists := placeholders 0 3 |}
  /\ length (placeholders 0 3) = 3%nat.
Proof.
  exact (colon_count_override Fixture.preprocess Fixture.run_process
           Fixture.main "TOK:3" eq_refl eq_refl).
Defined.

(** * Further properties of the code *)

(** ** Reading back a formatted integer *)

Lemma digits_value_acc (d : Decimal.uint) : forall acc : positive,
  PyStr.digits_value (Z.pos acc) true (NilEmpty.string_of_uint d)
  = Some (Z.pos (Pos.of_uint_acc d acc)).
Proof.
  induction d; intros acc; cbn [NilEmpty.string_of_uint PyStr.digits_value];
    [reflexivity|..];
    cbn [PyStr.digits_value Pos.of_uint_acc];
    match goal with
    | |- context [PyStr.digit_of ?c] =>
        let r := eval vm_compute in (PyStr.digit_of c) in
        change (PyStr.digit_of c) with r; cbn iota
    end;
    match goal with
    | |- PyStr.digits_value ?x _ _ = Some (Z.pos (Pos.of_uint_acc _ ?a)) =>
        replace x with (Z.pos a) by lia; apply IHd
    end.
Qed.

Lemma digits_value_uint (d : Decimal.uint) : forall prev,
  d <> Nil \/ prev = true ->
  PyStr.digits_value 0 prev (NilEmpty.string_of_uint d)
  = Some (Z.of_N (Pos.of_uint d)).
Proof.
  induction d; intros prev Hd;
    cbn [NilEmpty.string_of_uint PyStr.digits_value Pos.of_uint].
  - destruct Hd as [Hd| ->]; done.
  - cbn. apply IHd. by right.
  - apply (digits_value_acc d 1).
  - apply (digits_value_acc d 2).
  - apply (digits_value_acc d 3).
  - apply (digits_value_acc d 4).
  - apply (digits_value_acc d 5).
  - apply (digits_value_acc d 6).
  - apply (digits_value_acc d 7).
  - apply (digits_value_acc d 8).
  - apply (digits_value_acc d 9).
Qed.

Lemma rstrip_uint (d : Decimal.uint) :
  PyStr.rstrip (NilEmpty.string_of_uint d) = NilEmpty.string_of_uint d.
Proof.
  induction d; cbn [NilEmpty.string_of_uint PyStr.rstrip]; [done|..];
    rewrite IHd; by destruct (NilEmpty.string_of_uint d).
Qed.

Lemma strip_uint (d : Decimal.uint) :
  PyStr.strip (NilEmpty.string_of_uint d) = NilEmpty.string_of_uint d.
Proof.
  unfold PyStr.strip.
  replace (PyStr.lstrip (NilEmpty.string_of_uint d))
    with (NilEmpty.string_of_uint d) by (by destruct d).
  apply rstrip_uint.
Qed.

Lemma parse_int_uint (d : Decimal.uint) :
  d <> Nil ->
  PyStr.parse_int (NilEmpty.string_of_uint d) = Some (Z.of_N (Pos.of_uint d)).
Proof.
  intros Hd. unfold PyStr.parse_int. rewrite strip_uint.
  rewrite <- (digits_value_uint d false) by (by left).
  by destruct d.
Qed.

Lemma parse_int_neg_uint (d : Decimal.uint) :
  d <> Nil ->
  PyStr.parse_int (String "-" (NilEmpty.string_of_uint d))
  = Some (- Z.of_N (Pos.of_uint d)).
Proof.
  intros Hd. unfold PyStr.parse_int, PyStr.strip.
  cbn [PyStr.lstrip PyStr.is_space]. 
  change (PyStr.is_space "-") with false. cbn iota.
  cbn [PyStr.rstrip]. rewrite rstrip_uint.
  destruct (NilEmpty.string_of_uint d) eqn:Hs; [by destruct d|].
  rewrite <- Hs, (digits_value_uint d false) by (by left). done.
Qed.

(** [int(str(z)) == z]. *)
Lemma parse_int_str (z : Z) : PyStr.parse_int (PyStr.str z) = Some z.
Proof.
  unfold PyStr.str.
  destruct z as [|p|p]; [reflexivity|..];
    cbn [Z.to_int NilZero.string_of_int];
    pose proof (DecimalPos.Unsigned.to_uint_nonnil p) as Hp;
    replace (NilZero.string_of_uint (Pos.to_uint p))
      with (NilEmpty.string_of_uint (Pos.to_uint p))
      by (by destruct (Pos.to_uint p)).
  - by rewrite parse_int_uint, DecimalPos.Unsigned.of_to.
  - by rewrite parse_int_neg_uint, DecimalPos.Unsigned.of_to.
Qed.

(** ** Entries of the token map, one by one *)

(** The equation of one iteration. *)
Lemma builder_step_eq (st : BuilderState) (token : string) :
  builder_step st token
  = if PyStr.contains ":" token then
      match PyStr.parse_int (count_text token) with
      | Some n =>
          inr {| token_dict :=
                   PyDict.set (before_first ":" token)
                     (PyStr.join (placeholders (running_tok_cnt st) n))
                     (token_dict st);
                 running_tok_cnt := running_tok_cnt st + n;
                 all_token_lists :=
                   all_token_lists st ++ placeholders (running_tok_cnt st) n |}
      | None => inl ValueError
      end
    else inl IndexError.
Proof.
  unfold builder_step. rewrite split_cons.
  destruct (PyStr.contains ":" token); [|done].
  rewrite split_cons. cbn [PyStr.index nth_error]. unfold PyStr.int.
  fold (count_text token). by destruct (PyStr.parse_int (count_text token)).
Qed.

(** X1. One entry of the token map raises [IndexError] exactly when
    it has no colon, and [ValueError] exactly when it has one and the
    text between its first two colons is no integer literal; it raises
    nothing else, and the key (the text before the first colon) never
    fails to be there. *)
Lemma builder_step_raises (st : BuilderState) (token : string) :
  (builder_step st token = inl IndexError
   <-> PyStr.contains ":" token = false)
  /\ (builder_step st token = inl ValueError
      <-> PyStr.contains ":" token = true
          /\ PyStr.parse_int (count_text token) = None)
  /\ ((exists st', builder_step st token = inr st')
      <-> PyStr.contains ":" token = true
          /\ exists n, PyStr.parse_int (count_text token) = Some n).
Proof.
  rewrite builder_step_eq.
  destruct (PyStr.contains ":" token);
    [destruct (PyStr.parse_int (count_text token)) as [n|]|].
  all: split_and!; split; intros H; try done.
  all: try (by destruct H as [? ?]); try (by destruct H as [_ [? ?]]).
  all: eauto.
Qed.

Lemma builder_step_raises_witness :
  builder_step builder_init "my dog" = inl IndexError
  /\ builder_step builder_init "my dog:two" = inl ValueError.
Proof.
  split.
  - apply (builder_step_raises builder_init "my dog"). reflexivity.
  - apply (builder_step_raises builder_init "my dog:two"). split; reflexivity.
Defined.

(** X2. Without a comma in the trigger string there is one entry, and
    it has the colon of the appended [":2"]: no [IndexError]. *)
Lemma single_entry_never_index_error (S : string) :
  PyStr.contains "," S = false ->
  build_token_map S <> inl IndexError.
Proof.
  intros Hcomma. unfold build_token_map.
  rewrite split_absent by (by rewrite contains_app, Hcomma).
  cbn [builder_loop]. rewrite builder_step_eq.
  rewrite contains_app, orb_true_r.
  by destruct (PyStr.parse_int _).
Qed.

Lemma single_entry_never_index_error_witness :
  build_token_map "my concept" <> inl IndexError.
Proof. apply single_entry_never_index_error. reflexivity. Defined.

(** X3. The running count ends at the sum of the counts, negative ones
    included, and the token list grows by the non-negative ones. *)
Lemma builder_loop_totals (tokens : list string) : forall st st',
  builder_loop st tokens = inr st' ->
  exists counts,
    Forall2 (fun t n => entry_count t = Some n) tokens counts
    /\ running_tok_cnt st' = running_tok_cnt st + foldr Z.add 0 counts
    /\ length (all_token_lists st')
       = (length (all_token_lists st)
          + foldr (fun n acc => Z.to_nat n + acc) 0 counts)%nat.
Proof.
  induction tokens as [|t tokens IH]; intros st st'; cbn [builder_loop].
  - intros [= <-]. exists []. repeat split; [constructor|cbn; lia..].
  - destruct (builder_step st t) as [e|st1] eqn:Hstep; [done|].
    destruct (builder_step_continues _ _ _ Hstep) as (n & Hn & Hcnt & Htoks).
    intros Hloop. destruct (IH _ _ Hloop) as (counts & Hall & Hrun & Hlen).
    exists (n :: counts). split; [by constructor|].
    cbn [foldr]. rewrite Hrun, Hlen, Hcnt, Htoks.
    rewrite length_app, placeholders_length. lia.
Qed.

Lemma builder_loop_totals_witness :
  exists st counts,
    build_token_map "a:2,b:-1,c" = inr st
    /\ counts = [2; -1; 2]
    /\ running_tok_cnt st = 0 + foldr Z.add 0 counts
    /\ length (all_token_lists st) = 4%nat.
Proof.
  destruct (builder_loop_totals (PyStr.split "," ("a:2,b:-1,c" +:+ ":2"))
              builder_init
              {| token_dict := [("a", "<s0><s1>"); ("b", ""); ("c", "<s1><s2>")];
                 running_tok_cnt := 3;
                 all_token_lists := ["<s0>"; "<s1>"; "<s1>"; "<s2>"] |})
    as (counts & Hall & Hrun & Hlen); [vm_compute; reflexivity|].
  eexists _, counts. split; [vm_compute; reflexivity|].
  assert (counts = [2; -1; 2]) as ->.
  { repeat match goal with
           | H : Forall2 _ _ _ |- _ => inversion H; clear H; subst
           end.
    repeat match goal with
           | H : entry_count _ = Some _ |- _ => vm_compute in H; injection H as <-
           end.
    reflexivity. }
  split; [reflexivity|]. split; [exact Hrun|reflexivity].
Defined.

(** ** The dictionary the builder fills *)

Lemma keys_set_present (k v : string) (d : PyDict.t) :
  k ∈ PyDict.keys d -> PyDict.keys (PyDict.set k v d) = PyDict.keys d.
Proof.
  induction d as [|[k' v'] d IH]; cbn; [by intros ?%elem_of_nil|].
  destruct (String.eqb_spec k' k) as [->|Hne]; [done|].
  intros [?|Hin]%elem_of_cons; [done|]. cbn. f_equal. by apply IH.
Qed.

Lemma set_absent (k v : string) (d : PyDict.t) :
  k ∉ PyDict.keys d -> PyDict.set k v d = d ++ [(k, v)].
Proof.
  induction d as [|[k' v'] d IH]; cbn; [done|].
  intros Hnot. apply not_elem_of_cons in Hnot as [Hne Hnot].
  destruct (String.eqb_spec k' k) as [->|_]; [done|].
  f_equal. by apply IH.
Qed.

Lemma keys_set (k v : string) (d : PyDict.t) :
  PyDict.keys (PyDict.set k v d)
  = if decide (k ∈ PyDict.keys d) then PyDict.keys d
    else PyDict.keys d ++ [k].
Proof.
  case_decide as Hin; [by apply keys_set_present|].
  rewrite set_absent by done. unfold PyDict.keys. by rewrite fmap_app.
Qed.

Lemma get_set_eq (k v : string) (d : PyDict.t) :
  PyDict.get k (PyDict.set k v d) = Some v.
Proof.
  induction d as [|[k' v'] d IH]; cbn; [by rewrite String.eqb_refl|].
  destruct (String.eqb_spec k' k) as [->|Hne]; cbn.
  - by rewrite String.eqb_refl.
  - by destruct (String.eqb_spec k' k).
Qed.

Lemma get_set_ne (k k' v : string) (d : PyDict.t) :
  k <> k' -> PyDict.get k' (PyDict.set k v d) = PyDict.get k' d.
Proof.
  intros Hne. induction d as [|[k0 v0] d IH]; cbn.
  - by destruct (String.eqb_spec k k').
  - destruct (String.eqb_spec k0 k) as [->|Hne0]; cbn.
    + destruct (String.eqb_spec k k'); done.
    + destruct (String.eqb_spec k0 k'); done.
Qed.

Lemma builder_step_key (st st' : BuilderState) (token : string) :
  builder_step st token = inr st' ->
  exists v,
    token_dict st' = PyDict.set (before_first ":" token) v (token_dict st).
Proof.
  rewrite builder_step_eq.
  destruct (PyStr.contains ":" token); [|done].
  destruct (PyStr.parse_int _); [|done]. intros [= <-]. by eexists.
Qed.

Lemma builder_loop_keys (tokens : list string) : forall st st',
  NoDup (PyDict.keys (token_dict st)) ->
  builder_loop st tokens = inr st' ->
  NoDup (PyDict.keys (token_dict st'))
  /\ (forall k, k ∈ PyDict.keys (token_dict st')
                <-> k ∈ PyDict.keys (token_dict st)
                    \/ k ∈ before_first ":" <$> tokens).
Proof.
  induction tokens as [|t tokens IH]; intros st st' Hnodup; cbn [builder_loop].
  - intros [= <-]. split; [done|]. intros k. rewrite fmap_nil.
    split; [auto|]. intros [?|?%elem_of_nil]; done.
  - destruct (builder_step st t) as [e|st1] eqn:Hstep; [done|].
    destruct (builder_step_key _ _ _ Hstep) as [v Hdict].
    assert (PyDict.keys (token_dict st1)
            = if decide (before_first ":" t ∈ PyDict.keys (token_dict st))
              then PyDict.keys (token_dict st)
              else PyDict.keys (token_dict st) ++ [before_first ":" t])
      as Hkeys by (rewrite Hdict; apply keys_set).
    intros Hloop. destruct (IH st1 st') as [Hnd Hmem]; [|done|].
    { rewrite Hkeys. case_decide; [done|].
      apply NoDup_app. split; [done|]. split; [|apply NoDup_singleton].
      intros k Hk ->%list_elem_of_singleton. done. }
    split; [done|]. intros k. rewrite Hmem, Hkeys, fmap_cons, elem_of_cons.
    case_decide as Hin.
    + split; [tauto|]. intros [?|[->|?]]; auto.
    + rewrite elem_of_app, list_elem_of_singleton. tauto.
Qed.

(** X4. Preprocessing is handed the keys of the entries, each once, and at
    least the key of the last entry. *)
Lemma substitution_tokens_distinct (a : PredictArgs) (st : BuilderState) :
  build_token_map (token_string a) = inr st ->
  NoDup (Preprocess.substitution_tokens (preprocess_args a st))
  /\ Preprocess.substitution_tokens (preprocess_args a st) <> []
  /\ (forall k,
        k ∈ Preprocess.substitution_tokens (preprocess_args a st)
        <-> k ∈ before_first ":"
                  <$> PyStr.split "," (token_string a +:+ ":2")).
Proof.
  unfold build_token_map. intros Hloop. cbn [preprocess_args Preprocess.substitution_tokens].
  destruct (builder_loop_keys _ builder_init st NoDup_nil_2 Hloop)
    as [Hnd Hmem].
  split; [done|]. split.
  - intros Hnil.
    specialize
      (Hmem (before_first ":" (before_first "," (token_string a +:+ ":2")))).
    rewrite Hnil in Hmem. destruct Hmem as [_ Hmem].
    eapply elem_of_nil, Hmem. right. rewrite split_cons, fmap_cons.
    apply elem_of_cons. by left.
  - intros k. rewrite Hmem. cbn. split; [|auto].
    intros [?%elem_of_nil|?]; done.
Qed.

Lemma substitution_tokens_distinct_witness :
  exists st,
    build_token_map "a:1,b:3,a" = inr st
    /\ PyDict.keys (token_dict st) = ["a"; "b"]
    /\ NoDup (PyDict.keys (token_dict st)).
Proof.
  eexists. split; [vm_compute; reflexivity|]. split; [reflexivity|].
  apply (substitution_tokens_distinct (Fixture.with_token "a:1,b:3,a")).
  vm_compute. reflexivity.
Defined.

(** *** What the dictionary and the list have in common *)

Lemma string_app_assoc (x y z : string) : (x +:+ y) +:+ z = x +:+ (y +:+ z).
Proof.
  induction x as [|c x IH]; [done|].
  change (String c ((x +:+ y) +:+ z) = String c (x +:+ (y +:+ z))).
  by rewrite IH.
Qed.

Lemma string_app_nil_r (x : string) : x +:+ "" = x.
Proof.
  induction x as [|c x IH]; [done|].
  change (String c (x +:+ "") = String c x). by rewrite IH.
Qed.

Lemma join_app (l1 l2 : list string) :
  PyStr.join (l1 ++ l2) = PyStr.join l1 +:+ PyStr.join l2.
Proof.
  induction l1 as [|s l1 IH]; cbn; [done|].
  fold (PyStr.join (l1 ++ l2)). fold (PyStr.join l1).
  by rewrite IH, string_app_assoc.
Qed.

Lemma builder_loop_values (tokens : list string) : forall st st',
  NoDup (before_first ":" <$> tokens) ->
  (forall t, t ∈ tokens -> before_first ":" t ∉ PyDict.keys (token_dict st)) ->
  PyStr.join (all_token_lists st) = PyStr.join (snd <$> token_dict st) ->
  builder_loop st tokens = inr st' ->
  PyStr.join (all_token_lists st') = PyStr.join (snd <$> token_dict st').
Proof.
  induction tokens as [|t tokens IH]; intros st st' Hnd Hfresh Hinv;
    cbn [builder_loop]; [by intros [= <-]|].
  rewrite builder_step_eq.
  destruct (PyStr.contains ":" t); [|done].
  destruct (PyStr.parse_int (count_text t)) as [n|]; [|done].
  rewrite fmap_cons in Hnd. apply NoDup_cons in Hnd as [Hnew Hnd].
  assert (before_first ":" t ∉ PyDict.keys (token_dict st)) as Hkey
    by (apply Hfresh; by left).
  apply IH; [done|..]; cbn [token_dict all_token_lists].
  - intros t' Hin. rewrite keys_set.
    case_decide; [done|]. rewrite elem_of_app, list_elem_of_singleton.
    intros [Hold|Heq].
    + revert Hold. apply Hfresh. by right.
    + apply Hnew. rewrite <- Heq. by apply list_elem_of_fmap_2.
  - rewrite set_absent by done.
    rewrite fmap_app, !join_app, Hinv. cbn.
    by rewrite string_app_nil_r.
Qed.

(** X5. While the entries have pairwise distinct keys, the values of the
    dictionary, read in key order, spell the token list. *)
Lemma dict_values_spell_token_list (tokens : list string) (st : BuilderState) :
  NoDup (before_first ":" <$> tokens) ->
  builder_loop builder_init tokens = inr st ->
  PyStr.join (all_token_lists st) = PyStr.join (snd <$> token_dict st).
Proof.
  intros Hnd. apply builder_loop_values; [done| |done].
  intros t _. apply not_elem_of_nil.
Qed.

Lemma dict_values_spell_token_list_witness :
  exists st,
    build_token_map "a:3,b:0,c" = inr st
    /\ PyStr.join (all_token_lists st) = "<s0><s1><s2><s3><s4>"
    /\ PyStr.join (snd <$> token_dict st) = "<s0><s1><s2><s3><s4>".
Proof.
  exists {| token_dict := [("a", "<s0><s1><s2>"); ("b", ""); ("c", "<s3><s4>")];
            running_tok_cnt := 5;
            all_token_lists := ["<s0>"; "<s1>"; "<s2>"; "<s3>"; "<s4>"] |}.
  split; [vm_compute; reflexivity|]. split; [reflexivity|].
  rewrite <- (dict_values_spell_token_list
                (PyStr.split "," ("a:3,b:0,c" +:+ ":2"))).
  - reflexivity.
  - apply (bool_decide_unpack _). vm_compute. exact I.
  - vm_compute. reflexivity.
Defined.

Lemma builder_loop_keeps_other_keys (tokens : list string) : forall st st' k,
  k ∉ before_first ":" <$> tokens ->
  builder_loop st tokens = inr st' ->
  PyDict.get k (token_dict st') = PyDict.get k (token_dict st).
Proof.
  induction tokens as [|t tokens IH]; intros st st' k Hk; cbn [builder_loop];
    [by intros [= <-]|].
  rewrite fmap_cons in Hk. apply not_elem_of_cons in Hk as [Hne Hk].
  destruct (builder_step st t) as [e|st1] eqn:Hstep; [done|].
  destruct (builder_step_key _ _ _ Hstep) as [v Hdict].
  intros Hloop. rewrite (IH _ _ _ Hk Hloop), Hdict.
  by apply get_set_ne.
Qed.

Lemma entry_count_eq (t : string) :
  entry_count t
  = if PyStr.contains ":" t then PyStr.parse_int (count_text t) else None.
Proof.
  unfold entry_count. rewrite split_cons.
  destruct (PyStr.contains ":" t); [|done]. by rewrite split_cons.
Qed.

(** X6. Each key ends up with the tokens of the last entry that names
    it, numbered from where the entries before that one had got. *)
Lemma last_entry_wins (before after : list string) (t : string)
    (st : BuilderState) :
  before_first ":" t ∉ before_first ":" <$> after ->
  builder_loop builder_init (before ++ t :: after) = inr st ->
  exists st1 n,
    builder_loop builder_init before = inr st1
    /\ entry_count t = Some n
    /\ PyDict.get (before_first ":" t) (token_dict st)
       = Some (PyStr.join (placeholders (running_tok_cnt st1) n)).
Proof.
  intros Hlast. rewrite builder_loop_app.
  destruct (builder_loop builder_init before) as [e|st1]; [done|].
  cbn [builder_loop]. rewrite builder_step_eq, entry_count_eq.
  destruct (PyStr.contains ":" t); [|done].
  destruct (PyStr.parse_int (count_text t)) as [n|]; [|done].
  intros Hloop. exists st1, n. split; [done|]. split; [done|].
  rewrite (builder_loop_keeps_other_keys _ _ _ _ Hlast Hloop).
  apply get_set_eq.
Qed.

Lemma last_entry_wins_witness :
  exists st,
    build_token_map "a:1,b:1,a" = inr st
    /\ PyDict.get "a" (token_dict st) = Some "<s2><s3>".
Proof.
  exists {| token_dict := [("a", "<s2><s3>"); ("b", "<s1>")];
            running_tok_cnt := 4;
            all_token_lists := ["<s0>"; "<s1>"; "<s2>"; "<s3>"] |}.
  split; [vm_compute; reflexivity|].
  destruct (last_entry_wins ["a:1"; "b:1"] [] "a:2"
              {| token_dict := [("a", "<s2><s3>"); ("b", "<s1>")];
                 running_tok_cnt := 4;
                 all_token_lists := ["<s0>"; "<s1>"; "<s2>"; "<s3>"] |})
    as (st1 & n & Hbefore & Hn & Hget).
  - apply not_elem_of_nil.
  - vm_compute. reflexivity.
  - vm_compute in Hbefore, Hn. simplify_eq. exact Hget.
Defined.

(** ** Entries side by side *)

Lemma split_app_sep (c : ascii) (s t : string) :
  PyStr.split c (s +:+ String c t) = PyStr.split c s ++ PyStr.split c t.
Proof.
  induction s as [|a s IH].
  - change ("" +:+ String c t) with (String c t).
    cbn [PyStr.split]. by rewrite Ascii.eqb_refl.
  - change (String a s +:+ String c t) with (String a (s +:+ String c t)).
    cbn [PyStr.split]. rewrite IH.
    destruct (Ascii.eqb a c); [done|].
    rewrite (split_cons c s). done.
Qed.

Lemma before_first_absent_app (c : ascii) (s t : string) :
  PyStr.contains c s = false -> before_first c (s +:+ String c t) = s.
Proof.
  induction s as [|a s IH]; intros H.
  - change ("" +:+ String c t) with (String c t).
    cbn [before_first]. by rewrite Ascii.eqb_refl.
  - rewrite contains_cons in H. apply orb_false_elim in H as [Ha Hs].
    change (String a s +:+ String c t) with (String a (s +:+ String c t)).
    cbn [before_first]. rewrite Ascii.eqb_sym, Ha. f_equal. by apply IH.
Qed.

Lemma after_first_absent_app (c : ascii) (s t : string) :
  PyStr.contains c s = false -> after_first c (s +:+ String c t) = t.
Proof.
  induction s as [|a s IH]; intros H.
  - change ("" +:+ String c t) with (String c t).
    cbn [after_first]. by rewrite Ascii.eqb_refl.
  - rewrite contains_cons in H. apply orb_false_elim in H as [Ha Hs].
    change (String a s +:+ String c t) with (String a (s +:+ String c t)).
    cbn [after_first]. rewrite Ascii.eqb_sym, Ha. by apply IH.
Qed.

(** X7. A trigger string [pre,last] is handled as [pre] is when given
    alone as the token map, followed by one more entry for [last]; the
    appended [":2"] reaches that last entry only, which gets the two
    tokens after the ones generated before it. *)
Lemma last_entry_gets_two (pre last : string) :
  PyStr.contains "," last = false ->
  PyStr.contains ":" last = false ->
  build_token_map (pre +:+ String "," last)
  = match builder_loop builder_init (PyStr.split "," pre) with
    | inl e => inl e
    | inr st =>
        inr {| token_dict :=
                 PyDict.set last
                   (PyStr.join (placeholders (running_tok_cnt st) 2))
                   (token_dict st);
               running_tok_cnt := running_tok_cnt st + 2;
               all_token_lists :=
                 all_token_lists st ++ placeholders (running_tok_cnt st) 2 |}
    end.
Proof.
  intros Hcomma Hcolon. unfold build_token_map.
  rewrite string_app_assoc.
  change (String "," last +:+ ":2") with (String "," (last +:+ ":2")).
  rewrite split_app_sep, builder_loop_app.
  destruct (builder_loop builder_init (PyStr.split "," pre)) as [e|st]; [done|].
  rewrite split_absent by (by rewrite contains_app, Hcomma).
  cbn [builder_loop]. rewrite builder_step_eq.
  rewrite contains_app, orb_true_r. unfold count_text.
  rewrite (before_first_absent_app ":" last "2" Hcolon).
  rewrite (after_first_absent_app ":" last "2" Hcolon).
  reflexivity.
Qed.

Lemma last_entry_gets_two_witness :
  build_token_map "a:3,my dog"
  = inr {| token_dict := [("a", "<s0><s1><s2>"); ("my dog", "<s3><s4>")];
           running_tok_cnt := 5;
           all_token_lists := ["<s0>"; "<s1>"; "<s2>"; "<s3>"; "<s4>"] |}.
Proof.
  exact (last_entry_gets_two "a:3" "my dog" eq_refl eq_refl).
Defined.

(** ** A count written by [str] *)

Lemma contains_uint (c : ascii) (d : Decimal.uint) :
  PyStr.digit_of c = None ->
  PyStr.contains c (NilEmpty.string_of_uint d) = false.
Proof.
  intros Hc. induction d; cbn [NilEmpty.string_of_uint]; [done|..];
    rewrite contains_cons, IHd, orb_false_r;
    match goal with
    | |- Ascii.eqb c ?x = false =>
        destruct (Ascii.eqb_spec c x) as [->|]; [discriminate Hc|done]
    end.
Qed.

Lemma contains_str (c : ascii) (z : Z) :
  PyStr.digit_of c = None -> c <> "-"%char ->
  PyStr.contains c (PyStr.str z) = false.
Proof.
  intros Hc Hminus. unfold PyStr.str.
  destruct z as [|p|p]; cbn [Z.to_int NilZero.string_of_int].
  - cbn. destruct (Ascii.eqb_spec c "0") as [->|]; [discriminate Hc|done].
  - unfold NilZero.string_of_uint.
    destruct (Pos.to_uint p) eqn:Hd;
      [by destruct (DecimalPos.Unsigned.to_uint_nonnil p)|..];
      rewrite <- Hd; by apply contains_uint.
  - rewrite contains_cons. apply orb_false_intro.
    { by destruct (Ascii.eqb_spec c "-"). }
    unfold NilZero.string_of_uint.
    destruct (Pos.to_uint p) eqn:Hd;
      [by destruct (DecimalPos.Unsigned.to_uint_nonnil p)|..];
      rewrite <- Hd; by apply contains_uint.
Qed.

(** X8. The trigger string [key:k], with [k] written in decimal, yields
    the single entry [key] with [k] tokens (none for a negative [k]):
    the count text is read back as the number it was written from. *)
Lemma written_count_is_read_back (key : string) (k : Z) :
  PyStr.contains ":" key = false ->
  PyStr.contains "," key = false ->
  build_token_map (key +:+ String ":" (PyStr.str k))
  = inr {| token_dict := [(key, PyStr.join (placeholders 0 k))];
           running_tok_cnt := k;
           all_token_lists := placeholders 0 k |}.
Proof.
  intros Hcolon Hcomma. unfold build_token_map.
  rewrite string_app_assoc.
  change (String ":" (PyStr.str k) +:+ ":2")
    with (String ":" (PyStr.str k +:+ ":2")).
  rewrite split_absent.
  2: { rewrite contains_app, Hcomma, contains_cons, contains_app.
       by rewrite contains_str. }
  cbn [builder_loop]. rewrite builder_step_eq.
  rewrite contains_app, contains_cons, orb_true_r. unfold count_text.
  rewrite (before_first_absent_app ":" key _ Hcolon).
  rewrite (after_first_absent_app ":" key _ Hcolon).
  rewrite (before_first_absent_app ":" (PyStr.str k) "2")
    by (by apply contains_str).
  by rewrite parse_int_str.
Qed.

Lemma written_count_is_read_back_witness :
  build_token_map "TOK:12"
  = inr {| token_dict := [("TOK", PyStr.join (placeholders 0 12))];
           running_tok_cnt := 12;
           all_token_lists := placeholders 0 12 |}.
Proof.
  exact (written_count_is_read_back "TOK" 12 eq_refl eq_refl).
Defined.

(** ** What the collaborators are handed, and what their failures do *)

(** The events of a run, once its log has the form [t ++ evs]. *)
Ltac read_log :=
  erewrite new_events_app
    by (cbn [trace]; log_assoc;
        first [reflexivity | symmetry; apply app_nil_r]).

Section Collaborators.

Variable preprocess : Preprocess.args -> Env -> Env * Result string.
Variable run_process : list string -> Env -> Env * Result Z.
Variable main : Main.args -> Env -> Env * Result unit.

(** X9. Preprocessing is called at most once, with the caller's archive,
    file type, caption prefix, mask prompt and flags, with the
    resolution as target size and the CLIPSeg temperature as [temp]. *)
Lemma preprocess_arguments (a : PredictArgs) (w : World)
    (pa : Preprocess.args) :
  In pa (preprocess_calls
           (new_events w (predict preprocess run_process main a w).1)) ->
  preprocess_calls (new_events w (predict preprocess run_process main a w).1)
  = [pa]
  /\ Preprocess.input_images_filetype pa = input_images_filetype a
  /\ Preprocess.input_zip_path pa = input_images a
  /\ Preprocess.caption_text pa = caption_prefix a
  /\ Preprocess.mask_target_prompts pa = mask_target_prompts a
  /\ Preprocess.target_size pa = resolution a
  /\ Preprocess.crop_based_on_salience pa = crop_based_on_salience a
  /\ Preprocess.use_face_detection_instead pa = use_face_detection_instead a
  /\ Preprocess.temp pa = clipseg_temperature a.
Proof.
  run_unfold. repeat run_case.
  all: read_log; cbn [preprocess_calls omap list_omap].
  all: intros Hin; try (by destruct Hin).
  all: destruct Hin as [<-|[]]; repeat split.
Qed.

(** X10. The training routine is pointed at the weights cache, at
    [captions.csv] inside the directory preprocessing returned, and at
    the output directory, and it gets the dictionary and the token list
    the builder made. *)
Lemma training_placement (a : PredictArgs) (w : World) (m : Main.args) :
  In m (main_calls
          (new_events w (predict preprocess run_process main a w).1)) ->
  exists st e1 input_dir,
    build_token_map (token_string a) = inr st
    /\ preprocess (preprocess_args a st) (env w) = (e1, inr input_dir)
    /\ Main.pretrained_model_name_or_path m = "./sdxl-cache"
    /\ Main.instance_data_dir m = os_path_join input_dir "captions.csv"
    /\ Main.output_dir m = "training_out"
    /\ Main.token_dict m = token_dict st
    /\ Main.inserting_list_tokens m = all_token_lists st.
Proof.
  run_unfold. repeat run_case.
  all: read_log; cbn [main_calls omap list_omap].
  all: intros Hin; try (by destruct Hin).
  all: destruct Hin as [<-|[]]; eexists _, _, _; repeat split; eassumption.
Qed.

(** X11. An exception of the preprocessor is the exception of [predict];
    nothing is called after it. *)
Lemma preprocess_failure (a : PredictArgs) (w : World) (st : BuilderState)
    (e1 : Env) (err : PyError) :
  build_token_map (token_string a) = inr st ->
  preprocess (preprocess_args a st) (env w) = (e1, inl err) ->
  predict preprocess run_process main a w
  = ({| env := e1; trace := trace w ++ [EvPreprocess (preprocess_args a st)] |},
     inl err).
Proof.
  intros Hbuild Hpre. run_unfold. rewrite Hbuild. cbn. by rewrite Hpre.
Qed.

(** X12. A download that ends with a non-zero status ends the invocation
    with [CalledProcessError]: the elapsed time is not printed, the
    output directory is not looked at, the training routine is not
    called. *)
Lemma download_failure (a : PredictArgs) (w w1 : World)
    (r : BuilderState * string) (e2 : Env) (code : Z) :
  before_weights preprocess a w = (w1, inr r) ->
  fs_exists SDXL_MODEL_CACHE (fs (env w1)) = false ->
  run_process ["pget"; "-x"; SDXL_URL; SDXL_MODEL_CACHE] (env w1)
  = (e2, inr code) ->
  code <> 0 ->
  predict preprocess run_process main a w
  = ({| env := e2;
        trace := trace w1
                 ++ [EvExists SDXL_MODEL_CACHE;
                     EvPrint [PStr "downloading url: "; PStr SDXL_URL];
                     EvPrint [PStr "downloading to: "; PStr SDXL_MODEL_CACHE];
                     EvCheckCall ["pget"; "-x"; SDXL_URL; SDXL_MODEL_CACHE]] |},
     inl (CalledProcessError code)).
Proof.
  intros Hreach Hmiss Hrun Hcode. apply Z.eqb_neq in Hcode.
  revert Hreach. run_unfold. repeat run_case.
  all: intros; simplify_eq/=.
  all: try match goal with
       | H1 : negb ?x = _, H2 : ?x = _ |- _ => by rewrite H2 in H1
       end.
  all: try match goal with
       | H1 : run_process ?v ?e = _, H2 : run_process ?v ?e = _ |- _ =>
           rewrite H1 in H2; simplify_eq
       end.
  all: try congruence.
  all: log_assoc; reflexivity.
Qed.

(** X13. An exception of the training routine is the exception of
    [predict]: no path is returned. *)
Lemma training_failure (a : PredictArgs) (w w3 : World)
    (r : BuilderState * string) (e4 : Env) (err : PyError) :
  prepare preprocess run_process a w = (w3, inr r) ->
  main (main_args a r.1 r.2) (env w3) = (e4, inl err) ->
  predict preprocess run_process main a w
  = ({| env := e4; trace := trace w3 ++ [EvMain (main_args a r.1 r.2)] |},
     inl err).
Proof.
  intros Hprep Hmain. rewrite predict_split, bind_run, Hprep.
  run_unfold. cbn. by rewrite Hmain.
Qed.

End Collaborators.

(** ** The steps on the filesystem *)

Section Steps.

Variable preprocess : Preprocess.args -> Env -> Env * Result string.
Variable run_process : list string -> Env -> Env * Result Z.
Variable main : Main.args -> Env -> Env * Result unit.

(** X14. [download_weights], for any URL and destination: one [pget -x]
    is started whatever happens; the function returns exactly when
    that command could be run and exited with status 0, and only then
    prints the elapsed time, the clock after the command minus the
    clock before it; the filesystem is what [pget] left. *)
Lemma download_weights_runs_pget (url dest : string) (w : World) :
  let argv := ["pget"; "-x"; url; dest] in
  let out := download_weights run_process url dest w in
  env out.1 = (run_process argv (env w)).1
  /\ check_calls (new_events w out.1) = [argv]
  /\ (out.2 = inr tt <-> (run_process argv (env w)).2 = inr 0)
  /\ (forall x,
        In (EvPrint [PStr "downloading took: "; PFloat x])
           (new_events w out.1) ->
        out.2 = inr tt
        /\ x = (clock (env out.1) - clock (env w))%float).
Proof.
  cbv zeta. run_unfold. repeat run_case.
  all: read_log.
  all: match goal with
       | H : run_process _ _ = _ |- _ => rewrite ?H
       end.
  all: cbn [check_calls omap list_omap fst snd env trace In].
  all: repeat match goal with
       | H : (_ =? 0)%Z = true |- _ => apply Z.eqb_eq in H; subst
       | H : (_ =? 0)%Z = false |- _ => apply Z.eqb_neq in H
       end.
  all: repeat split; intros; simplify_eq; try done.
  all: repeat match goal with
       | H : _ \/ _ |- _ => destruct H
       | H : False |- _ => destruct H
       end; simplify_eq; try done.
Qed.

(** X15. When the working directory is a directory and
    [training_out] is not a regular file, the reset returns; afterwards
    [training_out] is an empty directory, every other entry of the
    working directory is as it was, and so is the clock. *)
Lemma reset_output_dir_frame (w : World) (children : gmap string Node) :
  fs (env w) = Dir children ->
  (forall c, children !! "training_out" <> Some (File c)) ->
  exists w' children',
    reset_output_dir w = (w', inr tt)
    /\ fs (env w') = Dir children'
    /\ children' !! "training_out" = Some (Dir ∅)
    /\ (forall name, name <> "training_out" ->
          children' !! name = children !! name)
    /\ clock (env w') = clock (env w).
Proof.
  intros Hfs Hfile. eexists _, _.
  split; [by apply reset_output_dir_eq|]. cbn [env fs with_fs clock].
  split; [done|]. split; [apply lookup_insert_eq|]. split; [|done].
  intros name Hname. by apply lookup_insert_ne.
Qed.

(** X16. When [training_out] is a regular file, [shutil.rmtree] refuses
    it: the reset raises, nothing is changed, no directory is made. *)
Lemma reset_output_dir_refuses_file (w : World) (content : string) :
  fs_lookup OUTPUT_DIR (fs (env w)) = Some (File content) ->
  reset_output_dir w
  = ({| env := env w;
        trace := trace w ++ [EvExists OUTPUT_DIR; EvRmtree OUTPUT_DIR] |},
     inl NotADirectoryError).
Proof.
  intros Hfile. run_unfold. unfold fs_exists, fs_rmtree.
  repeat (rewrite ?Hfile; cbn [env fs trace]).
  by rewrite <- app_assoc.
Qed.

(** X17. Looking the cache up again right after the resolver has returned
    finds it: no second download. *)
Lemma resolve_weights_idempotent (w1 w2 : World) :
  pget_extracts run_process ->
  resolve_weights run_process w1 = (w2, inr tt) ->
  resolve_weights run_process w2
  = ({| env := env w2; trace := trace w2 ++ [EvExists SDXL_MODEL_CACHE] |},
     inr tt).
Proof.
  intros Hpget Hfirst.
  pose proof (resolve_weights_leaves_cache run_process _ _ Hpget Hfirst)
    as Hthere.
  run_unfold. cbn [env fs trace]. by rewrite Hthere.
Qed.

(** X18. [predict] returns the artifact path whenever its collaborators
    return: the token map is built and preprocessing returns, the
    weights are there or downloaded, the working directory is a
    directory in which [training_out] is not a regular file, and the
    training routine, started on the emptied output directory,
    returns. *)
Lemma predict_returns (a : PredictArgs) (w w1 w2 : World)
    (r : BuilderState * string) (children : gmap string Node) (e4 : Env) :
  before_weights preprocess a w = (w1, inr r) ->
  resolve_weights run_process w1 = (w2, inr tt) ->
  fs (env w2) = Dir children ->
  (forall c, children !! "training_out" <> Some (File c)) ->
  main (main_args a r.1 r.2)
    (with_fs (env w2) (Dir (<["training_out" := Dir ∅]> children)))
  = (e4, inr tt) ->
  (predict preprocess run_process main a w).2
  = inr "training_out/lora.safetensors"
  /\ env (predict preprocess run_process main a w).1 = e4.
Proof.
  intros Hbefore Hresolve Hfs Hfile Hmain.
  rewrite predict_split, bind_run. unfold prepare.
  rewrite bind_run, Hbefore, bind_run, Hresolve, bind_run.
  rewrite (reset_output_dir_eq w2 children Hfs Hfile).
  cbn [mret M_ret]. unfold train_and_return, call_main.
  run_unfold. cbn [env trace]. by rewrite Hmain.
Qed.

End Steps.

(** ** The extra lemmas at work on a concrete machine *)

Lemma preprocess_arguments_witness :
  let a := Fixture.with_token "TOK" in
  let pa := preprocess_args a Faulty.tok_state in
  preprocess_calls (new_events Fixture.fresh (Fixture.run a Fixture.fresh).1)
  = [pa]
  /\ Preprocess.target_size pa = 768%Z
  /\ Preprocess.caption_text pa = "a photo of TOK, ".
Proof.
  intros a pa.
  destruct (preprocess_arguments Fixture.preprocess Fixture.run_process
              Fixture.main a Fixture.fresh pa)
    as (Hcalls & _ & _ & Hcaption & _ & Hsize & _).
  { vm_compute. left. reflexivity. }
  split; [exact Hcalls|]. split; [exact Hsize|exact Hcaption].
Defined.

Lemma training_placement_witness :
  let a := Fixture.with_token "TOK" in
  exists st e1 input_dir,
    build_token_map (token_string a) = inr st
    /\ Fixture.preprocess (preprocess_args a st) (env Fixture.fresh)
       = (e1, inr input_dir)
    /\ Main.pretrained_model_name_or_path
         (main_args a Faulty.tok_state "./temp_in") = "./sdxl-cache"
    /\ Main.instance_data_dir (main_args a Faulty.tok_state "./temp_in")
       = os_path_join input_dir "captions.csv"
    /\ Main.output_dir (main_args a Faulty.tok_state "./temp_in")
       = "training_out"
    /\ Main.token_dict (main_args a Faulty.tok_state "./temp_in")
       = token_dict st
    /\ Main.inserting_list_tokens (main_args a Faulty.tok_state "./temp_in")
       = all_token_lists st.
Proof.
  intros a.
  apply (training_placement Fixture.preprocess Fixture.run_process
           Fixture.main a Fixture.fresh).
  vm_compute. left. reflexivity.
Defined.

Lemma preprocess_failure_witness :
  (predict Fixture.rejecting_preprocess Fixture.run_process Fixture.main
     (Fixture.with_token "TOK") Fixture.used).2
  = inl (CollaboratorError "not a zip or tar archive").
Proof.
  rewrite (preprocess_failure Fixture.rejecting_preprocess
             Fixture.run_process Fixture.main (Fixture.with_token "TOK")
             Fixture.used Faulty.tok_state (env Fixture.used)
             (CollaboratorError "not a zip or tar archive")).
  - reflexivity.
  - vm_compute. reflexivity.
  - reflexivity.
Defined.

Lemma download_failure_witness :
  let a := Fixture.with_token "TOK" in
  let out := predict Fixture.preprocess Faulty.run_process Fixture.main a
               Fixture.fresh in
  out.2 = inl (CalledProcessError 1)
  /\ main_calls (trace out.1) = []
  /\ makedirs_calls (trace out.1) = [].
Proof.
  intros a out. unfold out.
  rewrite (download_failure Fixture.preprocess Faulty.run_process
             Fixture.main a Fixture.fresh
             (before_weights Fixture.preprocess a Fixture.fresh).1
             (Faulty.tok_state, "./temp_in")
             (env (before_weights Fixture.preprocess a Fixture.fresh).1) 1).
  - vm_compute. repeat split.
  - vm_compute. reflexivity.
  - vm_compute. reflexivity.
  - reflexivity.
  - discriminate.
Defined.

Lemma training_failure_witness :
  let a := Fixture.with_token "TOK" in
  (predict Fixture.preprocess Fixture.run_process Faulty.main a
     Fixture.fresh).2
  = inl (CollaboratorError "CUDA out of memory").
Proof.
  intros a.
  rewrite (training_failure Fixture.preprocess Fixture.run_process
             Faulty.main a Fixture.fresh
             (prepare Fixture.preprocess Fixture.run_process a Fixture.fresh).1
             (Faulty.tok_state, "./temp_in")
             (env (prepare Fixture.preprocess Fixture.run_process a
                     Fixture.fresh).1)
             (CollaboratorError "CUDA out of memory")).
  - reflexivity.
  - vm_compute. reflexivity.
  - reflexivity.
Defined.

Lemma download_weights_runs_pget_witness :
  let out := download_weights Fixture.run_process
               "https://example.org/weights.tar" "./refiner-cache"
               Fixture.fresh in
  out.2 = inr tt
  /\ check_calls (new_events Fixture.fresh out.1)
     = [["pget"; "-x"; "https://example.org/weights.tar"; "./refiner-cache"]]
  /\ fs_exists "./refiner-cache" (fs (env out.1)) = true.
Proof.
  intros out.
  destruct (download_weights_runs_pget Fixture.run_process
              "https://example.org/weights.tar" "./refiner-cache"
              Fixture.fresh)
    as (Henv & Hcalls & Hreturns & _).
  split; [apply Hreturns; reflexivity|].
  split; [exact Hcalls|].
  unfold out. rewrite Henv. vm_compute. reflexivity.
Defined.

Lemma reset_output_dir_frame_witness :
  exists w' children',
    reset_output_dir Fixture.used = (w', inr tt)
    /\ fs (env w') = Dir children'
    /\ children' !! "training_out" = Some (Dir ∅)
    /\ children' !! "sdxl-cache" = Some (Dir {[ "unet" := Dir ∅ ]}).
Proof.
  destruct (reset_output_dir_frame Fixture.used
              {[ "training_out" := Dir {[ "old.bin" := File "stale" ]};
                 "sdxl-cache" := Dir {[ "unet" := Dir ∅ ]} ]})
    as (w' & children' & Hrun & Hfs & Hout & Hrest & _).
  - reflexivity.
  - intros c. vm_compute. discriminate.
  - exists w', children'. split; [exact Hrun|]. split; [exact Hfs|].
    split; [exact Hout|]. rewrite Hrest by discriminate.
    vm_compute. reflexivity.
Defined.

Lemma reset_output_dir_refuses_file_witness :
  reset_output_dir Faulty.blocked
  = ({| env := env Faulty.blocked;
        trace := [EvExists OUTPUT_DIR; EvRmtree OUTPUT_DIR] |},
     inl NotADirectoryError).
Proof.
  apply (reset_output_dir_refuses_file Faulty.blocked "notes").
  vm_compute. reflexivity.
Defined.

Lemma resolve_weights_idempotent_witness :
  let w2 := (resolve_weights Fixture.run_process Fixture.fresh).1 in
  check_calls (trace w2)
  = [["pget"; "-x"; SDXL_URL; SDXL_MODEL_CACHE]]
  /\ resolve_weights Fixture.run_process w2
     = ({| env := env w2; trace := trace w2 ++ [EvExists SDXL_MODEL_CACHE] |},
        inr tt).
Proof.
  intros w2. split; [vm_compute; reflexivity|].
  apply (resolve_weights_idempotent Fixture.run_process Fixture.fresh w2).
  - exact fixture_pget_extracts.
  - vm_compute. reflexivity.
Defined.

Lemma predict_returns_witness :
  let a := Fixture.with_token "TOK" in
  (Fixture.run a Fixture.used).2 = inr "training_out/lora.safetensors".
Proof.
  intros a.
  pose (w1 := (before_weights Fixture.preprocess a Fixture.used).1).
  pose (w2 := (resolve_weights Fixture.run_process w1).1).
  apply (predict_returns Fixture.preprocess Fixture.run_process Fixture.main
           a Fixture.used w1 w2 (Faulty.tok_state, "./temp_in")
           {[ "training_out" := Dir {[ "old.bin" := File "stale" ]};
              "sdxl-cache" := Dir {[ "unet" := Dir ∅ ]};
              "temp_in" := Dir {[ "captions.csv" := File "caption,image" ]} ]}
           (Fixture.main (main_args a Faulty.tok_state "./temp_in")
              (with_fs (env w2)
                 (Dir (<["training_out" := Dir ∅]>
                    {[ "training_out" := Dir {[ "old.bin" := File "stale" ]};
                       "sdxl-cache" := Dir {[ "unet" := Dir ∅ ]};
                       "temp_in" :=
                         Dir {[ "captions.csv" := File "caption,image" ]} ]}))
              )).1).
  - vm_compute. reflexivity.
  - vm_compute. reflexivity.
  - vm_compute. reflexivity.
  - intros c. vm_compute. discriminate.
  - reflexivity.
Defined.
